(** * AnchorMarks Flow Launcher plugin: a shallow embedding of [main.py]

    The plugin is a single class, [AnchorMarks], with an in-memory
    configuration ([server_url], [api_key]), a configuration file next to
    the script, a query dispatcher and four action handlers.  This file
    embeds the class method by method and proves the properties of the
    design document about it.

    Conventions.
    - A Python [str] is a Rocq [string] holding its UTF-8 encoding.
    - A value obtained from JSON is a [json]; a Python [dict] with string
      keys is a [gmap string json].
    - A method that may raise returns a [result]; a method that talks to
      the network or the browser returns the list of [event]s it caused.
    - What the standard library or third-party packages compute
      ([urllib.parse.urlparse], [repr] of floats and containers, the HTTP
      client) is a parameter of the development. *)

From Stdlib Require Import ZArith NArith String Ascii List Bool Lia.
From Stdlib Require Import Floats.SpecFloat.
From stdpp Require Import base option gmap strings list pretty.

#[local] Set Warnings "-register-all".
#[local] Open Scope string_scope.

(** ** Python strings *)

Module PyStr.

Definition byte (c : ascii) : N := N_of_ascii c.

(** [s.startswith(p)] *)
Definition startswith (p s : string) : bool := String.prefix p s.

(** [s[n:]]; the dispatcher only slices off an ASCII prefix it has just
    matched, so [n] characters are [n] bytes. *)
Fixpoint slice_from (n : nat) (s : string) : string :=
  match n, s with
  | O, _ => s
  | S _, EmptyString => EmptyString
  | S n', String _ r => slice_from n' r
  end.

Definition is_empty (s : string) : bool :=
  match s with EmptyString => true | String _ _ => false end.

(** The white-space characters of [str.strip()] are U+0009..U+000D,
    U+001C..U+0020, U+0085, U+00A0, U+1680, U+2000..U+200A, U+2028,
    U+2029, U+202F, U+205F and U+3000. *)
Definition ascii_space (b : N) : bool :=
  ((9 <=? b) && (b <=? 13) || (28 <=? b) && (b <=? 32))%N.

Definition space2 (b0 b1 : N) : bool :=
  ((b0 =? 194) && ((b1 =? 133) || (b1 =? 160)))%N.

Definition space3 (b0 b1 b2 : N) : bool :=
  ((b0 =? 225) && (b1 =? 154) && (b2 =? 128)
   || (b0 =? 226) && (b1 =? 128)
      && ((128 <=? b2) && (b2 <=? 138) || (b2 =? 168) || (b2 =? 169)
          || (b2 =? 175))
   || (b0 =? 226) && (b1 =? 129) && (b2 =? 159)
   || (b0 =? 227) && (b1 =? 128) && (b2 =? 128))%N.

(** An ASCII character that is not white space. *)
Definition plain (c : ascii) : bool :=
  (byte c <? 128)%N && negb (ascii_space (byte c)).

(** Number of bytes of the white-space character [s] starts with, [0]
    when it starts with none. *)
Definition space_len (s : string) : nat :=
  match s with
  | EmptyString => 0
  | String c0 r0 =>
      if ascii_space (byte c0) then 1
      else match r0 with
           | EmptyString => 0
           | String c1 r1 =>
               if space2 (byte c0) (byte c1) then 2
               else match r1 with
                    | EmptyString => 0
                    | String c2 _ =>
                        if space3 (byte c0) (byte c1) (byte c2) then 3 else 0
                    end
           end
  end.

Fixpoint lstrip_fuel (fuel : nat) (s : string) : string :=
  match fuel with
  | O => s
  | S fuel' =>
      match space_len s with
      | O => s
      | S k => lstrip_fuel fuel' (slice_from (S k) s)
      end
  end.

(** [s.lstrip()]: one unit of fuel per byte is always enough. *)
Definition lstrip (s : string) : string := lstrip_fuel (String.length s) s.

Definition is_blank (s : string) : bool := is_empty (lstrip s).

(** [s.rstrip()] *)
Fixpoint rstrip (s : string) : string :=
  match s with
  | EmptyString => EmptyString
  | String c r => if is_blank s then EmptyString else String c (rstrip r)
  end.

(** [s.strip()] *)
Definition strip (s : string) : string := rstrip (lstrip s).

(** [s.rstrip(c)] for a one-character ASCII [c] *)
Fixpoint rstrip_char (c : ascii) (s : string) : string :=
  match s with
  | EmptyString => EmptyString
  | String a r =>
      let r' := rstrip_char c r in
      if Ascii.eqb a c && is_empty r' then EmptyString else String a r'
  end.

(** First occurrence of the ASCII character [c]: the text before it and
    the text after it. *)
Fixpoint partition (c : ascii) (s : string) : option (string * string) :=
  match s with
  | EmptyString => None
  | String a r =>
      if Ascii.eqb a c then Some (EmptyString, r)
      else match partition c r with
           | Some (x, y) => Some (String a x, y)
           | None => None
           end
  end.

(** [s.split(" ", 1)] *)
Definition split_once (s : string) : list string :=
  match partition " " s with
  | Some (x, y) => [x; y]
  | None => [s]
  end.

(** [p in s] for strings *)
Fixpoint contains (p s : string) : bool :=
  String.prefix p s
  || match s with
     | EmptyString => false
     | String _ r => contains p r
     end.

Definition continuation (b : N) : bool := ((128 <=? b) && (b <=? 191))%N.

(** The characters of [s], as [iter(s)] yields them: every lead byte
    with the continuation bytes that follow it. *)
Fixpoint chars (s : string) : list string :=
  match s with
  | EmptyString => []
  | String c r =>
      let starts_inside :=
        match r with
        | String d _ => continuation (byte d)
        | EmptyString => false
        end in
      match chars r with
      | x :: l =>
          if starts_inside then String c x :: l
          else String c EmptyString :: x :: l
      | [] => [String c EmptyString]
      end
  end.

End PyStr.

(** ** Values *)

(** What [json.load] and [response.json()] produce.  A number with a
    fraction or an exponent is a binary64 float. *)
Inductive json : Type :=
  | JNull
  | JBool (b : bool)
  | JInt (z : Z)
  | JFloat (f : spec_float)
  | JStr (s : string)
  | JList (l : list json)
  | JDict (m : gmap string json).

(** The value of an expression of the plugin: a JSON-born value, or the
    [bytes] object that [urlparse] hands back for a non-[str] argument. *)
Inductive pyval : Type :=
  | Val (v : json)
  | Bytes (b : string).

Inductive exn : Type := TypeError | AttributeError | KeyError.

Inductive result (A : Type) : Type :=
  | Ok (a : A)
  | Raise (e : exn).
Arguments Ok {A} a.
Arguments Raise {A} e.

Definition bind {A B : Type} (r : result A) (k : A -> result B) : result B :=
  match r with
  | Ok a => k a
  | Raise e => Raise e
  end.

Notation "'try!' x ':=' r 'in' k" := (bind r (fun x => k))
  (at level 10, x name, r at level 100, k at level 200,
   format "'[v' 'try!'  x  ':='  r  'in' '/' k ']'").

Fixpoint traverse {A B : Type} (f : A -> result B) (l : list A)
  : result (list B) :=
  match l with
  | [] => Ok []
  | a :: l' => try! b := f a in try! bs := traverse f l' in Ok (b :: bs)
  end.

(** [bool(v)] *)
Definition truthy (v : json) : bool :=
  match v with
  | JNull => false
  | JBool b => b
  | JInt z => negb (z =? 0)%Z
  | JFloat (S754_zero _) => false
  | JFloat _ => true
  | JStr s => negb (PyStr.is_empty s)
  | JList l => match l with [] => false | _ :: _ => true end
  | JDict m => negb (bool_decide (m = ∅))
  end.

Definition is_none (v : json) : bool :=
  match v with JNull => true | _ => false end.

(** [key in c] *)
Definition py_contains (key : string) (c : json) : result bool :=
  match c with
  | JDict m => Ok (bool_decide (is_Some (m !! key)))
  | JList l =>
      Ok (existsb (fun x => match x with
                            | JStr s => String.eqb s key
                            | _ => false
                            end) l)
  | JStr s => Ok (PyStr.contains key s)
  | _ => Raise TypeError
  end.

(** [c[key]] for a string [key] *)
Definition py_getitem (c : json) (key : string) : result json :=
  match c with
  | JDict m => match m !! key with Some v => Ok v | None => Raise KeyError end
  | _ => Raise TypeError
  end.

(** [c.get(key, default)] *)
Definition py_get (c : json) (key : string) (default : json) : result json :=
  match c with
  | JDict m => Ok (match m !! key with Some v => v | None => default end)
  | _ => Raise AttributeError
  end.

(** [c[key] = v] for a string [key] *)
Definition py_setitem (c : json) (key : string) (v : json) : result json :=
  match c with
  | JDict m => Ok (JDict (<[key := v]> m))
  | _ => Raise TypeError
  end.

(** [v > 0] *)
Definition py_gt_zero (v : json) : result bool :=
  match v with
  | JInt z => Ok (0 <? z)%Z
  | JBool b => Ok b
  | JFloat (S754_finite false _ _) => Ok true
  | JFloat (S754_infinity false) => Ok true
  | JFloat _ => Ok false
  | _ => Raise TypeError
  end.

(** [x += text] for a string [text] *)
Definition py_iadd (x : pyval) (text : string) : result pyval :=
  match x with
  | Val (JStr s) => Ok (Val (JStr (s +:+ text)))
  | Val (JList l) => Ok (Val (JList (l ++ map JStr (PyStr.chars text))%list))
  | _ => Raise TypeError
  end.

(** [iter(v)].  A dict yields its keys; their order plays no part
    below. *)
Definition py_iter (v : json) : result (list json) :=
  match v with
  | JList l => Ok l
  | JDict m => Ok (map (fun kv => JStr (fst kv)) (map_to_list m))
  | JStr s => Ok (map JStr (PyStr.chars s))
  | _ => Raise TypeError
  end.

(** ** The libraries the plugin calls *)

(** [netloc s] is [urlparse(s).netloc] for a [str], [None] when
    [urlparse] raises; [repr v] is the text of a float, a list or a
    dict. *)
Record PyLib : Type := {
  netloc : string -> option string;
  repr : json -> string;
}.

(** An HTTP GET as the plugin issues it, and what comes back. *)
Record request : Type := {
  req_url : string;
  req_headers : list (string * json);
  req_params : list (string * json);
  req_timeout : Z;
}.

Inductive response : Type :=
  | ConnectionError
  | Response (status_code : Z) (body : option json).

(** [requests] is [None] when the package cannot be imported; otherwise
    it answers every GET.  [body = None] stands for a body on which
    [response.json()] raises. *)
Record World : Type := {
  requests : option (request -> response);
}.

(** ** The plugin *)

(** The fields of an [AnchorMarks] instance that change; [config_file]
    is fixed at construction. *)
Record AnchorMarks : Type := {
  server_url : json;
  api_key : json;
}.

(** The configuration file.  A file that exists either yields a value
    under [json.load] or makes [open] or [json.load] raise. *)
Inductive file : Type :=
  | Unreadable
  | Holds (v : json).

(** [None]: [config_file.exists()] is false. *)
Definition disk : Type := option file.

(** What happens when [save_config] opens the file for writing and dumps
    the configuration into it.  [json.dump] followed by [json.load] gives
    the value back, so a completed write leaves [Holds config]. *)
Inductive write : Type :=
  | Written
  | OpenFails
  | DumpFails (remains : file).

(** A launcher result record and its [JsonRPCAction]. *)
Record action : Type := {
  method : string;
  parameters : list json;
}.

Record entry : Type := {
  Title : json;
  SubTitle : pyval;
  IcoPath : string;
  JsonRPCAction : option action;
}.

Inductive event : Type :=
  | HttpGet (r : request)
  | HttpPost (url : string) (headers : list (string * json))
             (payload : option json) (timeout : Z)
  | BrowserOpen (url : json).

Section Plugin.

Variable L : PyLib.

(** [str(v)], also the text an f-string inserts for [v]. *)
Definition py_str (v : json) : string :=
  match v with
  | JNull => "None"
  | JBool true => "True"
  | JBool false => "False"
  | JInt z => pretty z
  | JStr s => s
  | _ => repr L v
  end.

(** The value of [config] once the file has been looked at: [{}] unless
    the file exists and loads. *)
Definition read_config (d : disk) : json :=
  match d with
  | Some (Holds v) => v
  | _ => JDict ∅
  end.

(** [AnchorMarks.load_config], lines 28-51.  The membership tests, the
    subscripts and [get] are those of whatever [json.load] returned, so a
    file holding JSON other than an object makes the method raise. *)
Definition load_config (d : disk) : result AnchorMarks :=
  let config := read_config d in
  try! has_port := py_contains "port" config in
  try! port :=
    (if has_port : bool
     then try! p := py_getitem config "port" in Ok (py_str p)
     else Ok "3000") in
  let url := JStr ("http://localhost:" +:+ port) in
  try! key := py_get config "api_key" (JStr "") in
  try! has_url := py_contains "server_url" config in
  if has_url : bool
  then try! u := py_getitem config "server_url" in
       Ok {| server_url := u; api_key := key |}
  else Ok {| server_url := url; api_key := key |}.


(** [AnchorMarks.save_config], lines 53-76: the answer, the file and
    the instance afterwards.  Every exception ends in [return False]. *)
Definition save_config (self : AnchorMarks) (d : disk) (w : write)
    (new_url new_key : json) : bool * disk * AnchorMarks :=
  let config := read_config d in
  match
    (try! c := py_setitem config "server_url" new_url in
     py_setitem c "api_key" new_key)
  with
  | Raise _ => (false, d, self)
  | Ok config =>
      match w with
      | OpenFails => (false, d, self)
      | DumpFails remains => (false, Some remains, self)
      | Written =>
          (true, Some (Holds config),
           {| server_url := new_url; api_key := new_key |})
      end
  end.

Variable W : World.

(** The GET that [api_request] prepares; [None] when [server_url] is
    not a [str], has no [rstrip], and the [try] swallows the error. *)
Definition get_request (self : AnchorMarks) (endpoint : string)
    (params : list (string * json)) : option request :=
  match server_url self with
  | JStr base =>
      Some {| req_url := PyStr.rstrip_char "/" base +:+ "/api" +:+ endpoint;
              req_headers := [("X-API-Key", api_key self)];
              req_params := params;
              req_timeout := 5 |}
  | _ => None
  end.

(** What [api_request] makes of an answer: the decoded body of a 200,
    [None] for everything else. *)
Definition decoded (r : response) : json :=
  match r with
  | Response code (Some v) => if (code =? 200)%Z then v else JNull
  | Response _ None => JNull
  | ConnectionError => JNull
  end.

(** [AnchorMarks.api_request], lines 78-96: the GETs issued and the
    value returned, [JNull] being Python's [None]. *)
Definition api_request (self : AnchorMarks) (endpoint : string)
    (params : list (string * json)) : list event * json :=
  match requests W with
  | None => ([], JNull)
  | Some get =>
      if negb (truthy (api_key self)) then ([], JNull)
      else
        match get_request self endpoint params with
        | Some r => ([HttpGet r], decoded (get r))
        | None => ([], JNull)
        end
  end.

(** Lines 230-234: [urlparse(url).netloc] under the [try], [url] itself
    when that raises.  A false non-[str] argument is decoded to the empty string
    and the result encoded back to [bytes]; a true one has no
    [decode]. *)
Definition domain_of (url : json) : pyval :=
  match url with
  | JStr s =>
      match netloc L s with
      | Some d => Val (JStr d)
      | None => Val url
      end
  | _ => if truthy url then Val url else Bytes ""
  end.

(** [AnchorMarks._bookmark_to_result], lines 222-250. *)
Definition _bookmark_to_result (bookmark : json) : result entry :=
  try! fallback := py_get bookmark "url" (JStr "Untitled") in
  try! title := py_get bookmark "title" fallback in
  try! url := py_get bookmark "url" (JStr "") in
  try! favicon := py_get bookmark "favicon" (JStr "") in
  try! click_count := py_get bookmark "click_count" (JInt 0) in
  let domain := domain_of url in
  try! clicked := py_gt_zero click_count in
  try! subtitle :=
    (if clicked : bool
     then py_iadd domain (" • " +:+ py_str click_count +:+ " clicks")
     else Ok domain) in
  try! id := py_get bookmark "id" (JStr "") in
  Ok {| Title := title;
        SubTitle := subtitle;
        IcoPath := "icon.png";
        JsonRPCAction :=
          Some {| method := "open_bookmark"; parameters := [id; url] |} |}.

(** The entries [query] builds from literals, in the order of the
    source. *)
Definition message (title subtitle : string) (a : option action) : entry :=
  {| Title := JStr title;
     SubTitle := Val (JStr subtitle);
     IcoPath := "icon.png";
     JsonRPCAction := a |}.

Definition missing_requests_entry : entry :=
  message "Missing 'requests' library" "Run: pip install requests"
    (Some {| method := "open_url";
             parameters := [JStr "https://pypi.org/project/requests/"] |}).

Definition configure_entry (url key : string) : entry :=
  message ("Set API Key and connect to " +:+ url)
    "Press Enter to save configuration"
    (Some {| method := "configure"; parameters := [JStr url; JStr key] |}).

Definition usage_entry : entry :=
  message "Configure AnchorMarks" "Usage: lv config <server_url> <api_key>"
    None.

Definition not_configured_entry : entry :=
  message "AnchorMarks not configured"
    "Type: lv config http://localhost:3000 your_api_key" None.

Definition cannot_connect_entry (self : AnchorMarks) : entry :=
  message "Cannot connect to AnchorMarks"
    ("Check if server is running at " +:+ py_str (server_url self)) None.

Definition no_bookmarks_entry (self : AnchorMarks) : entry :=
  message "No bookmarks found" "Add some bookmarks in AnchorMarks"
    (Some {| method := "open_url"; parameters := [server_url self] |}).

Definition header_entry : entry :=
  message "Your Top Bookmarks" "Type to search or select a bookmark below"
    None.

Definition add_entry (url : string) : entry :=
  message ("Add bookmark: " +:+ url)
    "Press Enter to add this URL to AnchorMarks"
    (Some {| method := "add_bookmark"; parameters := [JStr url] |}).

Definition open_entry (self : AnchorMarks) : entry :=
  message "Open AnchorMarks"
    ("Open " +:+ py_str (server_url self) +:+ " in browser")
    (Some {| method := "open_url"; parameters := [server_url self] |}).

Definition no_match_entry (q : string) : entry :=
  message ("No bookmarks found for '" +:+ q +:+ "'")
    "Try a different search term" None.

(** The two loops [for bm in bookmarks: results.append(...)]. *)
Definition append_bookmarks (results : list entry) (bookmarks : json)
  : result (list entry) :=
  try! items := py_iter bookmarks in
  try! converted := traverse _bookmark_to_result items in
  Ok (results ++ converted)%list.

(** [AnchorMarks.query], lines 98-220: the GETs issued and the list
    returned, or the exception that escapes.  In the [add] branch [url]
    is only looked at when the prefix has matched. *)
Definition query (self : AnchorMarks) (q : string)
  : list event * result (list entry) :=
  match requests W with
  | None => ([], Ok [missing_requests_entry])
  | Some _ =>
  if PyStr.startswith "config " q then
    match PyStr.split_once (PyStr.strip (PyStr.slice_from 7 q)) with
    | [url; key] => ([], Ok [configure_entry url key])
    | _ => ([], Ok [usage_entry])
    end
  else if negb (truthy (api_key self)) then ([], Ok [not_configured_entry])
  else if String.eqb (PyStr.strip q) "" then
    let '(trace, bookmarks) :=
      api_request self "/quick-search" [("limit", JInt 10)] in
    if is_none bookmarks then (trace, Ok [cannot_connect_entry self])
    else if negb (truthy bookmarks) then (trace, Ok [no_bookmarks_entry self])
    else (trace, append_bookmarks [header_entry] bookmarks)
  else
    let url := PyStr.strip (PyStr.slice_from 4 q) in
    if PyStr.startswith "add " q && negb (PyStr.is_empty url)
    then ([], Ok [add_entry url])
    else if String.eqb (PyStr.strip q) "open" then ([], Ok [open_entry self])
    else
      let '(trace, bookmarks) :=
        api_request self "/quick-search"
          [("q", JStr q); ("limit", JInt 15)] in
      if is_none bookmarks then (trace, Ok [cannot_connect_entry self])
      else if negb (truthy bookmarks) then (trace, Ok [no_match_entry q])
      else (trace, append_bookmarks [] bookmarks)
  end.

(** *** Action handlers, lines 252-296 *)

Definition open_url (url : json) : list event := [BrowserOpen url].

Definition open_bookmark (self : AnchorMarks) (bookmark_id url : json)
  : list event :=
  let click :=
    if truthy bookmark_id && bool_decide (is_Some (requests W))
    then [HttpPost (py_str (server_url self) +:+ "/api/bookmarks/"
                    +:+ py_str bookmark_id +:+ "/click")
            [("X-API-Key", api_key self)] None 2]
    else [] in
  (click ++ [BrowserOpen url])%list.

Definition add_bookmark (self : AnchorMarks) (url : json) : list event :=
  match requests W with
  | None => []
  | Some _ =>
      [HttpPost (py_str (server_url self) +:+ "/api/bookmarks")
         [("X-API-Key", api_key self);
          ("Content-Type", JStr "application/json")]
         (Some (JDict {[ "url" := url ]})) 5]
  end.

Definition configure (self : AnchorMarks) (d : disk) (w : write)
    (new_url new_key : json) : disk * AnchorMarks :=
  let '(_, d', self') := save_config self d w new_url new_key in (d', self').

(** The host launcher's side of the contract: on selection it calls the
    method an entry's action names with the action's positional
    parameters.  [None] when the action names none of the four handlers
    with that many parameters. *)
Definition invoke (self : AnchorMarks) (d : disk) (w : write) (a : action)
  : option (list event * disk * AnchorMarks) :=
  match parameters a with
  | [x] =>
      if String.eqb (method a) "open_url" then Some (open_url x, d, self)
      else if String.eqb (method a) "add_bookmark"
      then Some (add_bookmark self x, d, self)
      else None
  | [x; y] =>
      if String.eqb (method a) "open_bookmark"
      then Some (open_bookmark self x y, d, self)
      else if String.eqb (method a) "configure"
      then let '(d', self') := configure self d w x y in Some ([], d', self')
      else None
  | _ => None
  end.

End Plugin.

(** ** Vocabulary of the design document *)

(** An entry that stands for a bookmark: selecting it calls
    [open_bookmark]. *)
Definition bookmark_entry (e : entry) : bool :=
  match JsonRPCAction e with
  | Some a => String.eqb (method a) "open_bookmark"
  | None => false
  end.

(** An informational entry is a message of the plugin, with or without an
    action of its own, as opposed to a bookmark. *)
Definition informational (e : entry) : bool := negb (bookmark_entry e).

(** A bookmark record of the remote service: an object whose [url], when
    present, is a string and whose [click_count], when present, is an
    integer. *)
Definition bookmark_record (b : json) : bool :=
  match b with
  | JDict m =>
      match m !! "url" with
      | Some (JStr _) | None => true
      | Some _ => false
      end
      && match m !! "click_count" with
         | Some (JInt _) | None => true
         | Some _ => false
         end
  | _ => false
  end.

Definition field (b : json) (key : string) (default : json) : json :=
  match b with
  | JDict m => match m !! key with Some v => v | None => default end
  | _ => default
  end.

(** Selecting the entry ends in the browser opening [url], whatever
    else happens before, and leaves file and instance alone. *)
Definition opens_in_browser (L : PyLib) (W : World) (self : AnchorMarks)
    (e : entry) (url : json) : Prop :=
  exists a, JsonRPCAction e = Some a
    /\ forall d w, exists before,
         invoke L W self d w a
         = Some ((before ++ [BrowserOpen url])%list, d, self).

(** Selecting the entry posts [url] to the service as a new bookmark. *)
Definition submits_bookmark (L : PyLib) (W : World) (self : AnchorMarks)
    (e : entry) (url : string) : Prop :=
  exists a, JsonRPCAction e = Some a
    /\ forall d w,
         invoke L W self d w a
         = Some ([HttpPost (py_str L (server_url self) +:+ "/api/bookmarks")
                    [("X-API-Key", api_key self);
                     ("Content-Type", JStr "application/json")]
                    (Some (JDict {[ "url" := JStr url ]})) 5],
                 d, self).

(** Selecting the entry runs [save_config] with [url] and [key]. *)
Definition persists (L : PyLib) (W : World) (self : AnchorMarks)
    (e : entry) (url key : string) : Prop :=
  exists a, JsonRPCAction e = Some a
    /\ forall d w, exists ok d' self',
         save_config self d w (JStr url) (JStr key) = (ok, d', self')
         /\ invoke L W self d w a = Some ([], d', self').

(** The request failed: no connection, a status other than 200, or a
    body that is not JSON. *)
Definition failed (r : response) : bool :=
  match r with
  | ConnectionError => true
  | Response code body => negb (code =? 200)%Z || negb (bool_decide (is_Some body))
  end.

(** An event that goes over the network. *)
Definition http (e : event) : bool :=
  match e with
  | HttpGet _ | HttpPost _ _ _ _ => true
  | BrowserOpen _ => false
  end.

(** The parameters of the one GET a query can lead to: the top ten for a
    blank query, the raw query text and fifteen matches otherwise. *)
Definition quick_search_params (q : string) : list (string * json) :=
  if String.eqb (PyStr.strip q) ""
  then [("limit", JInt 10)]
  else [("q", JStr q); ("limit", JInt 15)].

(** The query goes to the service: it is blank, or it is neither an add
    command with something to add nor [open]. *)
Definition fetches (q : string) : bool :=
  String.eqb (PyStr.strip q) ""
  || negb (PyStr.startswith "add " q
           && negb (PyStr.is_empty (PyStr.strip (PyStr.slice_from 4 q))))
     && negb (String.eqb (PyStr.strip q) "open").

(** The click-count annotation of a subtitle. *)
Definition clicks (n : Z) : string := " • " +:+ pretty n +:+ " clicks".

(** ** An instance of the libraries, for the examples *)

Module Examples.

Fixpoint authority (s : string) : string :=
  match s with
  | EmptyString => EmptyString
  | String c r =>
      if existsb (Ascii.eqb c) ["/"; "?"; "#"]%char then EmptyString
      else String c (authority r)
  end.

(** The network location of a plain [scheme://authority/path] URL. *)
Definition plain_netloc (s : string) : option string :=
  let rest :=
    match PyStr.partition ":" s with
    | Some (_, r) => r
    | None => s
    end in
  if PyStr.startswith "//" rest
  then Some (authority (PyStr.slice_from 2 rest))
  else Some EmptyString.

Definition lib : PyLib := {| netloc := plain_netloc; repr := fun _ => "?" |}.

(** No server is listening. *)
Definition offline : World := {| requests := Some (fun _ => ConnectionError) |}.

Definition rocq_bookmark : json :=
  JDict {[ "id" := JStr "b1"; "title" := JStr "Rocq";
           "url" := JStr "https://rocq-prover.org/docs";
           "click_count" := JInt 5 ]}.

Definition bare_bookmark : json :=
  JDict {[ "id" := JStr "b2"; "url" := JStr "http://localhost:3000/x" ]}.

(** The service answers every GET with the same two bookmarks. *)
Definition online : World :=
  {| requests :=
       Some (fun _ => Response 200 (Some (JList [rocq_bookmark; bare_bookmark]))) |}.

Definition unconfigured : AnchorMarks :=
  {| server_url := JStr "http://localhost:3000"; api_key := JStr "" |}.

Definition configured : AnchorMarks :=
  {| server_url := JStr "http://localhost:3000/"; api_key := JStr "s3cret" |}.

(** What the configuration file may hold. *)
Definition stored_port : gmap string json := {[ "port" := JInt 8080 ]}.

Definition stored_both : gmap string json :=
  {[ "port" := JInt 8080; "server_url" := JStr "http://bm.example" ]}.

(** The GETs of [configured] and the entries of the two bookmarks. *)
Definition top_request : request :=
  {| req_url := "http://localhost:3000/api/quick-search";
     req_headers := [("X-API-Key", JStr "s3cret")];
     req_params := [("limit", JInt 10)];
     req_timeout := 5 |}.

Definition search_request (q : string) : request :=
  {| req_url := "http://localhost:3000/api/quick-search";
     req_headers := [("X-API-Key", JStr "s3cret")];
     req_params := [("q", JStr q); ("limit", JInt 15)];
     req_timeout := 5 |}.

Definition rocq_entry : entry :=
  {| Title := JStr "Rocq";
     SubTitle := Val (JStr "rocq-prover.org • 5 clicks");
     IcoPath := "icon.png";
     JsonRPCAction :=
       Some {| method := "open_bookmark";
               parameters := [JStr "b1"; JStr "https://rocq-prover.org/docs"] |} |}.

Definition bare_entry : entry :=
  {| Title := JStr "http://localhost:3000/x";
     SubTitle := Val (JStr "localhost:3000");
     IcoPath := "icon.png";
     JsonRPCAction :=
       Some {| method := "open_bookmark";
               parameters := [JStr "b2"; JStr "http://localhost:3000/x"] |} |}.

(** The service answers every GET with a 200 and the body [v]. *)
Definition answering (v : json) : World :=
  {| requests := Some (fun _ => Response 200 (Some v)) |}.

(** The [requests] package is not installed. *)
Definition no_requests : World := {| requests := None |}.

(** A bookmark whose click count came out as JSON null. *)
Definition odd_bookmark : json :=
  JDict {[ "id" := JStr "b3"; "url" := JStr "https://example.com/";
           "click_count" := JNull ]}.

End Examples.

(** ** Sanity checks of the string layer *)

Example strip_spaces : PyStr.strip "  open " = "open".
Proof. reflexivity. Qed.

Example strip_no_break_space :
  PyStr.strip (String (ascii_of_N 194) (String (ascii_of_N 160) " a b  "))
  = "a b".
Proof. reflexivity. Qed.

Example split_once_keeps_second_space :
  PyStr.split_once "a  b" = ["a"; " b"].
Proof. reflexivity. Qed.

Example split_once_empty : PyStr.split_once "" = [""].
Proof. reflexivity. Qed.

Example rstrip_slashes : PyStr.rstrip_char "/" "http://x//" = "http://x".
Proof. reflexivity. Qed.

Example chars_of_annotation : PyStr.chars " • 5" = [" "; "•"; " "; "5"].
Proof. reflexivity. Qed.

(** ** Facts about strings *)

Module PyStrFacts.
Import PyStr.

Lemma space_len_plain c r : plain c = true -> space_len (String c r) = 0.
Proof.
  unfold plain. intros [Hlt Hsp]%andb_prop.
  apply negb_true_iff in Hsp. apply N.ltb_lt in Hlt.
  unfold space_len. rewrite Hsp.
  destruct r as [|c1 r1]; [reflexivity|].
  assert (H2 : space2 (byte c) (byte c1) = false).
  { unfold space2. replace (byte c =? 194)%N with false; [reflexivity|].
    symmetry. apply N.eqb_neq. lia. }
  rewrite H2. destruct r1 as [|c2 r2]; [reflexivity|].
  assert (H3 : space3 (byte c) (byte c1) (byte c2) = false).
  { unfold space3.
    replace (byte c =? 225)%N with false by (symmetry; apply N.eqb_neq; lia).
    replace (byte c =? 226)%N with false by (symmetry; apply N.eqb_neq; lia).
    replace (byte c =? 227)%N with false by (symmetry; apply N.eqb_neq; lia).
    reflexivity. }
  rewrite H3. reflexivity.
Qed.

Lemma slice_from_length n s :
  String.length (slice_from n s) <= String.length s.
Proof.
  revert s. induction n as [|n IH]; intros [|c s]; cbn; try lia.
  specialize (IH s). lia.
Qed.

Lemma lstrip_fuel_done fuel s :
  String.length s <= fuel -> space_len (lstrip_fuel fuel s) = 0.
Proof.
  revert s. induction fuel as [|fuel IH]; intros s Hlen.
  - destruct s; [reflexivity | cbn in Hlen; lia].
  - cbn [lstrip_fuel]. destruct (space_len s) as [|k] eqn:E; [exact E|].
    apply IH. destruct s as [|c r]; [discriminate E|].
    cbn [slice_from]. pose proof (slice_from_length k r). cbn in Hlen. lia.
Qed.

(** The fuel of [lstrip] never runs out: what it returns starts with no
    white space. *)
Lemma lstrip_done s : space_len (lstrip s) = 0.
Proof. apply lstrip_fuel_done. lia. Qed.

Lemma lstrip_plain c r : plain c = true -> lstrip (String c r) = String c r.
Proof.
  intros H. unfold lstrip. cbn [String.length lstrip_fuel].
  rewrite (space_len_plain c r H). reflexivity.
Qed.

(** Stripping keeps a leading plain character. *)
Lemma strip_plain c r :
  plain c = true -> strip (String c r) = String c (rstrip r).
Proof.
  intros H. unfold strip. rewrite (lstrip_plain c r H).
  cbn [rstrip]. unfold is_blank. rewrite (lstrip_plain c r H).
  reflexivity.
Qed.

Lemma startswith_head c p q :
  startswith (String c p) q = true -> exists r, q = String c r.
Proof.
  unfold startswith. destruct q as [|b q']; cbn [String.prefix].
  - discriminate.
  - destruct (Ascii.ascii_dec c b) as [->|]; [eauto | discriminate].
Qed.

Lemma startswith_append p r : startswith p (p +:+ r) = true.
Proof.
  unfold startswith. induction p as [|c p IH]; simpl.
  - destruct r; reflexivity.
  - destruct (Ascii.ascii_dec c c); [exact IH | congruence].
Qed.

Lemma split_once_length s :
  length (split_once s) = 1 \/ length (split_once s) = 2.
Proof. unfold split_once. destruct (partition " " s) as [[x y]|]; auto. Qed.

Lemma append_empty s : s +:+ "" = s.
Proof. induction s as [|c s IH]; [reflexivity | exact (f_equal (String c) IH)]. Qed.

Lemma is_empty_eqb s : String.eqb s "" = is_empty s.
Proof. destruct s; reflexivity. Qed.

End PyStrFacts.

(** ** Configuration: load and save *)

Section Config.

Variable L : PyLib.

Lemma load_config_dict d m :
  read_config d = JDict m ->
  load_config L d =
    Ok {| server_url :=
            match m !! "server_url" with
            | Some u => u
            | None =>
                JStr ("http://localhost:" +:+
                      match m !! "port" with
                      | Some p => py_str L p
                      | None => "3000"
                      end)
            end;
          api_key :=
            match m !! "api_key" with
            | Some k => k
            | None => JStr ""
            end |}.
Proof.
  intros Hd. unfold load_config. rewrite Hd.
  cbn [py_contains py_get py_getitem bind].
  destruct (m !! "port") as [p|] eqn:Hp;
    destruct (m !! "server_url") as [u|] eqn:Hu;
    repeat (first [ rewrite bool_decide_eq_true_2 by eauto
                  | rewrite bool_decide_eq_false_2
                      by (intros [? ?]; discriminate) ]);
    cbn [bind]; reflexivity.
Qed.

Lemma save_config_inv self d w u k r d' self' :
  save_config self d w u k = (r, d', self') ->
  (r = false /\ self' = self)
  \/ (exists m, read_config d = JDict m /\ w = Written /\ r = true
      /\ d' = Some (Holds (JDict (<["api_key" := k]> (<["server_url" := u]> m))))
      /\ self' = {| server_url := u; api_key := k |}).
Proof.
  unfold save_config. destruct (read_config d) as [| | | | | |m];
    cbn [py_setitem bind];
    try (intros [= <- <- <-]; left; split; reflexivity).
  destruct w; intros [= <- <- <-].
  - right. exists m. repeat split; reflexivity.
  - left. split; reflexivity.
  - left. split; reflexivity.
Qed.

(** C9.  Whenever the configuration the plugin reads is a JSON object
    (the file's own object, or the empty one when the file is missing
    or does not load), [load_config] succeeds; a [server_url] key wins
    over a [port] key; without either key the server URL is
    [http://localhost:3000]; without an [api_key] key the API key is
    the empty string. *)
Theorem load_config_precedence d m :
  read_config d = JDict m ->
  exists st,
    load_config L d = Ok st
    /\ (forall u, m !! "server_url" = Some u -> server_url st = u)
    /\ (m !! "server_url" = None -> m !! "port" = None ->
        server_url st = JStr "http://localhost:3000")
    /\ (m !! "api_key" = None -> api_key st = JStr "").
Proof.
  intros Hd. eexists. split; [apply (load_config_dict d m Hd)|].
  cbn [server_url api_key]. split; [|split].
  - intros u ->. reflexivity.
  - intros -> ->. reflexivity.
  - intros ->. reflexivity.
Qed.

(** C5.  If [save_config] returns [True], loading the configuration
    from the file it left yields the saved server URL and API key. *)
Theorem save_then_load self d w u k d' self' :
  save_config self d w u k = (true, d', self') ->
  exists st,
    load_config L d' = Ok st /\ server_url st = u /\ api_key st = k.
Proof.
  intros [[[=] _] | (m & _ & _ & _ & -> & _)]%save_config_inv.
  eexists. split; [apply load_config_dict; reflexivity|].
  cbn [server_url api_key].
  rewrite lookup_insert_ne by discriminate.
  rewrite !lookup_insert_eq. split; reflexivity.
Qed.

(** C10.  If [save_config] returns [False], the in-memory server URL
    and API key are the ones the instance had before the call. *)
Theorem failed_save_keeps_memory self d w u k d' self' :
  save_config self d w u k = (false, d', self') ->
  server_url self' = server_url self /\ api_key self' = api_key self.
Proof.
  intros [[_ ->] | (m & _ & _ & [=] & _)]%save_config_inv.
  split; reflexivity.
Qed.

End Config.

(** ** Bookmarks as display entries *)

Section Bookmarks.

Variable L : PyLib.

(** The entry of a bookmark record whose URL is the string [u] and whose
    click count is the integer [n]. *)
Lemma bookmark_to_result_record m u n :
  field (JDict m) "url" (JStr "") = JStr u ->
  field (JDict m) "click_count" (JInt 0) = JInt n ->
  _bookmark_to_result L (JDict m) =
    Ok {| Title := field (JDict m) "title"
                     (field (JDict m) "url" (JStr "Untitled"));
          SubTitle :=
            Val (JStr (match netloc L u with Some h => h | None => u end
                       +:+ if (0 <? n)%Z then clicks n else ""));
          IcoPath := "icon.png";
          JsonRPCAction :=
            Some {| method := "open_bookmark";
                    parameters := [field (JDict m) "id" (JStr ""); JStr u] |} |}.
Proof.
  unfold field, _bookmark_to_result. cbn [py_get bind].
  intros -> ->. cbn [domain_of py_gt_zero bind].
  destruct (netloc L u) as [h|], (0 <? n)%Z;
    cbn [py_iadd bind py_str]; unfold clicks;
    rewrite ?PyStrFacts.append_empty; reflexivity.
Qed.

(** C6.  For a bookmark record with URL [u], host component [h] and
    click count [n]: the title is the record's [title], else its [url],
    else ["Untitled"]; the subtitle is [h] followed by ["<n> clicks"]
    when [n > 0], and [h] alone when [n] is zero (or negative). *)
Theorem bookmark_entry_fields m u n h :
  field (JDict m) "url" (JStr "") = JStr u ->
  field (JDict m) "click_count" (JInt 0) = JInt n ->
  netloc L u = Some h ->
  exists e,
    _bookmark_to_result L (JDict m) = Ok e
    /\ Title e = match m !! "title" with
                 | Some t => t
                 | None => match m !! "url" with
                           | Some x => x
                           | None => JStr "Untitled"
                           end
                 end
    /\ ((0 < n)%Z ->
        SubTitle e = Val (JStr (h +:+ " • " +:+ pretty n +:+ " clicks")))
    /\ ((n <= 0)%Z -> SubTitle e = Val (JStr h)).
Proof.
  intros Hu Hn Hh. eexists. split; [apply (bookmark_to_result_record m u n Hu Hn)|].
  cbn [Title SubTitle]. rewrite Hh. split; [reflexivity|]. split; intros Hs.
  - apply Z.ltb_lt in Hs. rewrite Hs. reflexivity.
  - apply Z.ltb_ge in Hs. rewrite Hs.
    rewrite PyStrFacts.append_empty. reflexivity.
Qed.

(** When [urlparse] raises on the URL, the whole URL is shown instead. *)
Lemma bookmark_unparsed_url m u :
  field (JDict m) "url" (JStr "") = JStr u ->
  field (JDict m) "click_count" (JInt 0) = JInt 0 ->
  netloc L u = None ->
  exists e, _bookmark_to_result L (JDict m) = Ok e /\ SubTitle e = Val (JStr u).
Proof.
  intros Hu Hn Hh. eexists. split; [apply (bookmark_to_result_record m u 0 Hu Hn)|].
  cbn [SubTitle]. rewrite Hh. change (0 <? 0)%Z with false.
  rewrite PyStrFacts.append_empty. reflexivity.
Qed.

Lemma bookmark_record_fields b :
  bookmark_record b = true ->
  exists m u n,
    b = JDict m
    /\ field b "url" (JStr "") = JStr u
    /\ field b "click_count" (JInt 0) = JInt n.
Proof.
  destruct b as [| | | | | |m]; try discriminate.
  unfold bookmark_record, field. intros [H1 H2]%andb_prop.
  destruct (m !! "url") as [[| | | |u| |]|]; try discriminate;
    destruct (m !! "click_count") as [[| |n| | | |]|]; try discriminate;
    eauto 10.
Qed.

End Bookmarks.

(** ** The query dispatcher *)

Section Dispatcher.

Variable L : PyLib.
Variable W : World.
Variable get : request -> response.
Hypothesis requests_available : requests W = Some get.

Import PyStr PyStrFacts.

(** The configuration command is handled before anything else. *)
Lemma query_config self rest :
  query L W self ("config " +:+ rest) =
    ([], Ok [match split_once (strip rest) with
             | [url; key] => configure_entry url key
             | _ => usage_entry
             end]).
Proof.
  unfold query. rewrite requests_available.
  rewrite startswith_append.
  change (slice_from 7 ("config " +:+ rest)) with rest.
  cbv iota.
  destruct (split_once (strip rest)) as [|u [|k [|x l]]]; reflexivity.
Qed.

Lemma query_not_configured self q :
  startswith "config " q = false ->
  truthy (api_key self) = false ->
  query L W self q = ([], Ok [not_configured_entry]).
Proof.
  intros Hc Hk. unfold query. rewrite requests_available, Hc, Hk. reflexivity.
Qed.

Lemma strip_keeps_head c p q :
  plain c = true -> startswith (String c p) q = true ->
  exists t, strip q = String c t.
Proof.
  intros Hc [r ->]%startswith_head. rewrite (strip_plain c r Hc). eauto.
Qed.

Lemma blank_not_config q : strip q = "" -> startswith "config " q = false.
Proof.
  intros Hq. destruct (startswith "config " q) eqn:E; [|reflexivity].
  apply strip_keeps_head in E as [t Ht]; [congruence | reflexivity].
Qed.

Lemma open_not_config q : strip q = "open" -> startswith "config " q = false.
Proof.
  intros Hq. destruct (startswith "config " q) eqn:E; [|reflexivity].
  apply strip_keeps_head in E as [t Ht]; [congruence | reflexivity].
Qed.

Lemma open_not_add q : strip q = "open" -> startswith "add " q = false.
Proof.
  intros Hq. destruct (startswith "add " q) eqn:E; [|reflexivity].
  apply strip_keeps_head in E as [t Ht]; [congruence | reflexivity].
Qed.

Lemma failed_decoded r : failed r = true -> decoded r = JNull.
Proof.
  destruct r as [|code [v|]]; cbn; try reflexivity.
  rewrite orb_false_r. intros ->%negb_true_iff. reflexivity.
Qed.

(** What the search branch returns, for a query that reaches it. *)
Lemma query_search self q :
  truthy (api_key self) = true ->
  startswith "config " q = false ->
  strip q <> "" ->
  startswith "add " q && negb (is_empty (strip (slice_from 4 q))) = false ->
  strip q <> "open" ->
  query L W self q =
    let '(trace, bookmarks) :=
      api_request W self "/quick-search" [("q", JStr q); ("limit", JInt 15)] in
    if is_none bookmarks then (trace, Ok [cannot_connect_entry L self])
    else if negb (truthy bookmarks) then (trace, Ok [no_match_entry q])
    else (trace, append_bookmarks L [] bookmarks).
Proof.
  intros Hk Hc He Ha Ho. unfold query.
  rewrite requests_available, Hc, Hk, Ha.
  apply String.eqb_neq in He, Ho. rewrite He, Ho. reflexivity.
Qed.

Lemma traverse_records bms :
  Forall (fun b => bookmark_record b = true) bms ->
  exists es,
    traverse (_bookmark_to_result L) bms = Ok es
    /\ Forall2 (fun b e => _bookmark_to_result L b = Ok e) bms es.
Proof.
  induction 1 as [|b bms Hb _ (es & Hes & Hall)].
  - exists []. split; [reflexivity | constructor].
  - destruct (bookmark_record_fields b Hb) as (m & u & n & -> & Hu & Hn).
    pose proof (bookmark_to_result_record L m u n Hu Hn) as He.
    eexists (_ :: es). cbn [traverse]. rewrite He, Hes. cbn [bind].
    split; [reflexivity | constructor; [exact He | exact Hall]].
Qed.

(** C1.  With no API key configured, every query returns exactly one
    entry, an informational one, and makes no network call; unless the
    query is a configuration command the entry is the "not configured"
    message. *)
Theorem unconfigured_single_entry self q :
  truthy (api_key self) = false ->
  exists e,
    query L W self q = ([], Ok [e])
    /\ informational e = true
    /\ (startswith "config " q = false -> e = not_configured_entry).
Proof.
  intros Hk. unfold query. rewrite requests_available.
  destruct (startswith "config " q).
  - destruct (split_once (strip (slice_from 7 q))) as [|u [|k [|x l]]];
      eexists; (split; [reflexivity|]); (split; [reflexivity | discriminate]).
  - rewrite Hk. eexists. split; [reflexivity|]. split; [reflexivity | trivial].
Qed.

(** C2.  With an API key configured, a query that is empty (after
    trimming) to which the service answers 200 with a JSON list of
    [N >= 1] bookmark records returns [N + 1] entries: the header, then
    for each bookmark in order its display entry, whose action opens the
    bookmark's URL in the browser. *)
Theorem top_bookmarks self q r bms :
  truthy (api_key self) = true ->
  strip q = "" ->
  get_request self "/quick-search" [("limit", JInt 10)] = Some r ->
  get r = Response 200 (Some (JList bms)) ->
  bms <> [] ->
  Forall (fun b => bookmark_record b = true) bms ->
  exists es,
    query L W self q = ([HttpGet r], Ok (header_entry :: es))
    /\ length (header_entry :: es) = S (length bms)
    /\ Forall2 (fun b e =>
                  _bookmark_to_result L b = Ok e
                  /\ opens_in_browser L W self e (field b "url" (JStr "")))
         bms es.
Proof.
  intros Hk Hq Hr Hget Hne Hall.
  destruct (traverse_records bms Hall) as (es & Hes & H2).
  exists es. split; [|split].
  - unfold query. rewrite requests_available, (blank_not_config q Hq), Hk, Hq.
    cbn [negb String.eqb]. unfold api_request.
    rewrite requests_available, Hk, Hr, Hget. cbn [negb decoded Z.eqb Pos.eqb].
    cbn [is_none truthy]. destruct bms as [|b bms]; [congruence|].
    cbn [negb]. unfold append_bookmarks. cbn [py_iter bind].
    rewrite Hes. reflexivity.
  - cbn [length]. f_equal. symmetry. exact (Forall2_length _ _ _ H2).
  - clear Hes Hget Hne. induction H2 as [|b e bms es He _ IH]; constructor.
    + split; [exact He|].
      apply Forall_inv in Hall.
      destruct (bookmark_record_fields b Hall) as (m & u & n & -> & Hu & Hn).
      rewrite (bookmark_to_result_record L m u n Hu Hn) in He.
      injection He as <-. rewrite Hu. eexists. split; [reflexivity|].
      intros d w. eexists. reflexivity.
    + apply IH. exact (Forall_inv_tail Hall).
Qed.

(** C3.  With an API key configured, for a query that is no command, if
    the GET the search issues fails (the call raises, the status is not
    200, or the body is not JSON) the query returns exactly the "cannot
    connect" entry, and raises nothing. *)
Theorem search_failure_single_entry self q :
  truthy (api_key self) = true ->
  startswith "config " q = false ->
  strip q <> "" ->
  startswith "add " q = false ->
  strip q <> "open" ->
  (forall r,
     get_request self "/quick-search" [("q", JStr q); ("limit", JInt 15)]
     = Some r -> failed (get r) = true) ->
  query L W self q =
    (match get_request self "/quick-search"
             [("q", JStr q); ("limit", JInt 15)] with
     | Some r => [HttpGet r]
     | None => []
     end,
     Ok [cannot_connect_entry L self]).
Proof.
  intros Hk Hc He Ha Ho Hfail.
  rewrite (query_search self q Hk Hc He) by (rewrite ?Ha; auto).
  unfold api_request. rewrite requests_available, Hk. cbn [negb].
  destruct (get_request self "/quick-search" _) as [r|]; [|reflexivity].
  rewrite (failed_decoded _ (Hfail r eq_refl)). reflexivity.
Qed.

(** C4, as amended.  For a query ["config " ++ rest], the rest is trimmed
    and then split once at its first space.  Two parts give exactly one
    confirmation entry whose action saves them as server URL and API
    key; one part gives exactly the usage hint.  No network call is
    made. *)
Theorem config_command self rest :
  (forall url key,
     split_once (strip rest) = [url; key] ->
     query L W self ("config " +:+ rest) = ([], Ok [configure_entry url key])
     /\ persists L W self (configure_entry url key) url key)
  /\ (length (split_once (strip rest)) <> 2 ->
      query L W self ("config " +:+ rest) = ([], Ok [usage_entry])).
Proof.
  rewrite query_config. split.
  - intros url key ->. split; [reflexivity|].
    eexists. split; [reflexivity|]. intros d w.
    destruct (save_config self d w (JStr url) (JStr key)) as [[ok d'] self'] eqn:E.
    exists ok, d', self'. split; [reflexivity|].
    cbn [invoke configure_entry message JsonRPCAction parameters method].
    cbn [String.eqb Ascii.eqb Bool.eqb]. unfold configure. rewrite E. reflexivity.
  - destruct (split_once (strip rest)) as [|u [|k [|x l]]]; cbn [length];
      try reflexivity. congruence.
Qed.

(** C7, as amended.  With an API key configured, a query that trims to
    [open] returns exactly one entry, and its action opens the
    configured server URL in the browser. *)
Theorem open_command self q :
  truthy (api_key self) = true ->
  strip q = "open" ->
  query L W self q = ([], Ok [open_entry L self])
  /\ opens_in_browser L W self (open_entry L self) (server_url self).
Proof.
  intros Hk Hq. split.
  - unfold query.
    rewrite requests_available, (open_not_config q Hq), Hk, (open_not_add q Hq), Hq.
    reflexivity.
  - eexists. split; [reflexivity|]. intros d w. exists []. reflexivity.
Qed.

(** C8, as amended.  With an API key configured, a query ["add " ++ rest]
    whose rest is not blank returns exactly one entry, whose action
    posts the trimmed rest as a new bookmark URL; the query itself makes
    no network call. *)
Theorem add_command self rest :
  truthy (api_key self) = true ->
  strip rest <> "" ->
  query L W self ("add " +:+ rest) = ([], Ok [add_entry (strip rest)])
  /\ submits_bookmark L W self (add_entry (strip rest)) (strip rest).
Proof.
  intros Hk Hrest. split.
  - unfold query. rewrite requests_available, Hk.
    change (startswith "config " ("add " +:+ rest)) with false.
    rewrite startswith_append.
    change (slice_from 4 ("add " +:+ rest)) with rest.
    destruct (strip_keeps_head "a" "dd " ("add " +:+ rest) eq_refl
                (startswith_append "add " rest)) as [t Ht].
    rewrite Ht. cbn [negb String.eqb andb].
    destruct (strip rest) as [|c s]; [congruence | reflexivity].
  - eexists. split; [reflexivity|]. intros d w.
    cbn [invoke add_entry message JsonRPCAction parameters method].
    cbn [String.eqb Ascii.eqb Bool.eqb]. unfold add_bookmark.
    rewrite requests_available. reflexivity.
Qed.

End Dispatcher.

(** *** Concrete runs *)

(** The file sets both [port] and [server_url]. *)
Lemma load_config_precedence_witness :
  let m := Examples.stored_both in
  read_config (Some (Holds (JDict m))) = JDict m
  /\ exists st,
      load_config Examples.lib (Some (Holds (JDict m))) = Ok st
      /\ (forall u, m !! "server_url" = Some u -> server_url st = u)
      /\ (m !! "server_url" = None -> m !! "port" = None ->
          server_url st = JStr "http://localhost:3000")
      /\ (m !! "api_key" = None -> api_key st = JStr "").
Proof.
  intros m. split; [reflexivity|].
  apply (load_config_precedence Examples.lib _ m). reflexivity.
Defined.

(** The file sets a [port]; the save keeps it and adds both keys. *)
Lemma save_then_load_witness :
  let saved : gmap string json :=
    <["api_key" := JStr "s3cret"]>
      (<["server_url" := JStr "http://bm.example"]> Examples.stored_port) in
  save_config Examples.unconfigured
    (Some (Holds (JDict Examples.stored_port))) Written
    (JStr "http://bm.example") (JStr "s3cret")
  = (true, Some (Holds (JDict saved)),
     {| server_url := JStr "http://bm.example"; api_key := JStr "s3cret" |})
  /\ exists st,
      load_config Examples.lib (Some (Holds (JDict saved))) = Ok st
      /\ server_url st = JStr "http://bm.example"
      /\ api_key st = JStr "s3cret".
Proof.
  intros saved. split; [reflexivity|].
  apply (save_then_load Examples.lib Examples.unconfigured
           (Some (Holds (JDict Examples.stored_port))) Written
           (JStr "http://bm.example") (JStr "s3cret")
           (Some (Holds (JDict saved)))
           {| server_url := JStr "http://bm.example";
              api_key := JStr "s3cret" |}).
  reflexivity.
Defined.

(** The dump breaks off half way: the file is damaged, the instance is
    not. *)
Lemma failed_save_keeps_memory_witness :
  save_config Examples.configured (Some (Holds (JDict Examples.stored_port)))
    (DumpFails Unreadable) (JStr "http://bm.example") (JStr "k")
  = (false, Some Unreadable, Examples.configured)
  /\ server_url Examples.configured = JStr "http://localhost:3000/"
  /\ api_key Examples.configured = JStr "s3cret".
Proof.
  split; [reflexivity|].
  apply (failed_save_keeps_memory Examples.configured
           (Some (Holds (JDict Examples.stored_port))) (DumpFails Unreadable)
           (JStr "http://bm.example") (JStr "k")
           (Some Unreadable) Examples.configured).
  reflexivity.
Defined.

Example bookmark_to_result_rocq :
  _bookmark_to_result Examples.lib Examples.rocq_bookmark
  = Ok Examples.rocq_entry.
Proof. reflexivity. Qed.

Example bookmark_to_result_bare :
  _bookmark_to_result Examples.lib Examples.bare_bookmark
  = Ok Examples.bare_entry.
Proof. reflexivity. Qed.

Lemma unconfigured_single_entry_witness :
  requests Examples.offline = Some (fun _ => ConnectionError)
  /\ truthy (api_key Examples.unconfigured) = false
  /\ exists e,
       query Examples.lib Examples.offline Examples.unconfigured
         "add https://example.com" = ([], Ok [e])
       /\ informational e = true
       /\ (PyStr.startswith "config " "add https://example.com" = false ->
           e = not_configured_entry).
Proof.
  split; [reflexivity|]. split; [reflexivity|].
  apply (unconfigured_single_entry Examples.lib Examples.offline
           (fun _ => ConnectionError) eq_refl Examples.unconfigured).
  reflexivity.
Defined.

Lemma top_bookmarks_witness :
  requests Examples.online
  = Some (fun _ => Response 200
                     (Some (JList [Examples.rocq_bookmark; Examples.bare_bookmark])))
  /\ truthy (api_key Examples.configured) = true
  /\ PyStr.strip "" = ""
  /\ get_request Examples.configured "/quick-search" [("limit", JInt 10)]
     = Some Examples.top_request
  /\ exists es,
       query Examples.lib Examples.online Examples.configured ""
       = ([HttpGet Examples.top_request], Ok (header_entry :: es))
       /\ length (header_entry :: es) = 3
       /\ Forall2 (fun b e =>
                     _bookmark_to_result Examples.lib b = Ok e
                     /\ opens_in_browser Examples.lib Examples.online
                          Examples.configured e (field b "url" (JStr "")))
            [Examples.rocq_bookmark; Examples.bare_bookmark] es.
Proof.
  repeat (split; [reflexivity|]).
  apply (top_bookmarks Examples.lib Examples.online _ eq_refl
           Examples.configured "" Examples.top_request
           [Examples.rocq_bookmark; Examples.bare_bookmark]).
  - reflexivity.
  - reflexivity.
  - reflexivity.
  - reflexivity.
  - discriminate.
  - repeat constructor.
Defined.

Example top_bookmarks_run :
  query Examples.lib Examples.online Examples.configured ""
  = ([HttpGet Examples.top_request], Ok [header_entry; Examples.rocq_entry; Examples.bare_entry]).
Proof. reflexivity. Qed.

Lemma search_failure_single_entry_witness :
  requests Examples.offline = Some (fun _ => ConnectionError)
  /\ truthy (api_key Examples.configured) = true
  /\ PyStr.startswith "config " "rocq docs" = false
  /\ PyStr.strip "rocq docs" <> ""
  /\ PyStr.startswith "add " "rocq docs" = false
  /\ PyStr.strip "rocq docs" <> "open"
  /\ query Examples.lib Examples.offline Examples.configured "rocq docs"
     = ([HttpGet (Examples.search_request "rocq docs")],
        Ok [cannot_connect_entry Examples.lib Examples.configured]).
Proof.
  split; [reflexivity|]. split; [reflexivity|]. split; [reflexivity|].
  split; [discriminate|]. split; [reflexivity|]. split; [discriminate|].
  apply (search_failure_single_entry Examples.lib Examples.offline
           (fun _ => ConnectionError) eq_refl Examples.configured "rocq docs").
  - reflexivity.
  - reflexivity.
  - discriminate.
  - reflexivity.
  - discriminate.
  - intros r _. reflexivity.
Defined.

Lemma config_command_witness :
  requests Examples.offline = Some (fun _ => ConnectionError)
  /\ PyStr.split_once (PyStr.strip " http://bm.example  k3y ")
     = ["http://bm.example"; " k3y"]
  /\ query Examples.lib Examples.offline Examples.unconfigured
       "config  http://bm.example  k3y "
     = ([], Ok [configure_entry "http://bm.example" " k3y"])
  /\ persists Examples.lib Examples.offline Examples.unconfigured
       (configure_entry "http://bm.example" " k3y") "http://bm.example" " k3y".
Proof.
  split; [reflexivity|]. split; [reflexivity|].
  apply (config_command Examples.lib Examples.offline
           (fun _ => ConnectionError) eq_refl Examples.unconfigured
           " http://bm.example  k3y ").
  reflexivity.
Defined.

Lemma bookmark_entry_fields_witness :
  let m : gmap string json :=
    {[ "title" := JStr "Rocq"; "url" := JStr "https://rocq-prover.org/docs";
       "click_count" := JInt 5 ]} in
  field (JDict m) "url" (JStr "") = JStr "https://rocq-prover.org/docs"
  /\ field (JDict m) "click_count" (JInt 0) = JInt 5
  /\ netloc Examples.lib "https://rocq-prover.org/docs" = Some "rocq-prover.org"
  /\ exists e,
       _bookmark_to_result Examples.lib (JDict m) = Ok e
       /\ Title e = JStr "Rocq"
       /\ ((0 < 5)%Z ->
           SubTitle e = Val (JStr ("rocq-prover.org" +:+ " • " +:+ pretty 5%Z
                                   +:+ " clicks")))
       /\ ((5 <= 0)%Z -> SubTitle e = Val (JStr "rocq-prover.org")).
Proof.
  intros m. repeat (split; [reflexivity|]).
  apply (bookmark_entry_fields Examples.lib m "https://rocq-prover.org/docs" 5
           "rocq-prover.org"); reflexivity.
Defined.

Lemma open_command_witness :
  requests Examples.offline = Some (fun _ => ConnectionError)
  /\ truthy (api_key Examples.configured) = true
  /\ PyStr.strip " open " = "open"
  /\ query Examples.lib Examples.offline Examples.configured " open "
     = ([], Ok [open_entry Examples.lib Examples.configured])
  /\ opens_in_browser Examples.lib Examples.offline Examples.configured
       (open_entry Examples.lib Examples.configured)
       (server_url Examples.configured).
Proof.
  repeat (split; [reflexivity|]).
  apply (open_command Examples.lib Examples.offline
           (fun _ => ConnectionError) eq_refl Examples.configured " open ");
    reflexivity.
Defined.

Lemma add_command_witness :
  requests Examples.offline = Some (fun _ => ConnectionError)
  /\ truthy (api_key Examples.configured) = true
  /\ PyStr.strip " https://example.com " <> ""
  /\ query Examples.lib Examples.offline Examples.configured
       ("add " +:+ " https://example.com ")
     = ([], Ok [add_entry (PyStr.strip " https://example.com ")])
  /\ submits_bookmark Examples.lib Examples.offline Examples.configured
       (add_entry (PyStr.strip " https://example.com "))
       (PyStr.strip " https://example.com ").
Proof.
  split; [reflexivity|]. split; [reflexivity|]. split; [discriminate|].
  apply (add_command Examples.lib Examples.offline
           (fun _ => ConnectionError) eq_refl Examples.configured
           " https://example.com ").
  - reflexivity.
  - discriminate.
Defined.

(** *** Where the design document and the code part *)

(** C4.  With a second space after [config], splitting the remaining
    text at its first space gives an empty first part; the dispatcher
    trims first and offers to save the two words. *)
Lemma config_untrimmed_counterexample :
  PyStr.split_once " http://bm.example k3y" = [""; "http://bm.example k3y"]
  /\ query Examples.lib Examples.offline Examples.unconfigured
       ("config " +:+ " http://bm.example k3y")
     = ([], Ok [configure_entry "http://bm.example" "k3y"])
  /\ configure_entry "http://bm.example" "k3y"
     <> configure_entry "" "http://bm.example k3y".
Proof. split; [reflexivity|]. split; [reflexivity | discriminate]. Qed.

(** C7.  Without an API key, [open] gets the "not configured" message,
    which has no action. *)
Lemma open_unconfigured_counterexample :
  PyStr.strip "open" = "open"
  /\ query Examples.lib Examples.offline Examples.unconfigured "open"
     = ([], Ok [not_configured_entry])
  /\ ~ opens_in_browser Examples.lib Examples.offline Examples.unconfigured
         not_configured_entry (server_url Examples.unconfigured).
Proof.
  split; [reflexivity|]. split; [reflexivity|].
  intros (a & Ha & _). discriminate Ha.
Qed.

(** C8.  [add] followed by nothing but a space falls through to the
    search: a GET is issued and the two bookmarks found are listed. *)
Lemma add_blank_counterexample :
  truthy (api_key Examples.configured) = true
  /\ query Examples.lib Examples.online Examples.configured ("add " +:+ "")
     = ([HttpGet (Examples.search_request "add ")], Ok [Examples.rocq_entry; Examples.bare_entry])
  /\ ~ exists e,
         query Examples.lib Examples.online Examples.configured ("add " +:+ "")
         = ([], Ok [e]).
Proof.
  split; [reflexivity|]. split; [reflexivity|].
  intros (e & He). discriminate He.
Qed.

(** A 200 whose body is JSON of the wrong shape is not a failure of the
    request: the loop over it raises. *)
Example search_wrong_shape_raises :
  query Examples.lib
    {| requests :=
         Some (fun _ => Response 200
                          (Some (JDict {[ "error" := JStr "unauthorized" ]}))) |}
    Examples.configured "rocq docs"
  = ([HttpGet (Examples.search_request "rocq docs")], Raise AttributeError).
Proof. reflexivity. Qed.

(** ** Further properties of the configuration *)

Section ConfigMore.

Variable L : PyLib.


(** X1.  Without a [server_url] key, a [port] key decides the server
    URL: an integer port is written in decimal after
    [http://localhost:], a string port is appended as it is. *)
Theorem load_config_port d m p :
  read_config d = JDict m ->
  m !! "server_url" = None ->
  m !! "port" = Some p ->
  exists st,
    load_config L d = Ok st
    /\ (forall n, p = JInt n ->
        server_url st = JStr ("http://localhost:" +:+ pretty n))
    /\ (forall s, p = JStr s -> server_url st = JStr ("http://localhost:" +:+ s)).
Proof.
  intros Hd Hu Hp. eexists. split; [apply (load_config_dict L d m Hd)|].
  cbn [server_url]. rewrite Hu, Hp. split; intros ? ->; reflexivity.
Qed.


(** X3.  A successful save keeps every other key of the existing file:
    the new file is the old object with [server_url] and [api_key] set
    and nothing else touched. *)
Theorem save_config_keeps_other_keys self d w u k d' self' :
  save_config self d w u k = (true, d', self') ->
  exists m m',
    read_config d = JDict m
    /\ d' = Some (Holds (JDict m'))
    /\ m' !! "server_url" = Some u
    /\ m' !! "api_key" = Some k
    /\ forall key, key <> "server_url" -> key <> "api_key" ->
                   m' !! key = m !! key.
Proof.
  intros [[[=] _] | (m & Hm & _ & _ & -> & _)]%save_config_inv.
  exists m. eexists. split; [exact Hm|]. split; [reflexivity|].
  split; [|split].
  - rewrite lookup_insert_ne by discriminate. apply lookup_insert_eq.
  - apply lookup_insert_eq.
  - intros key H1 H2. rewrite !lookup_insert_ne by congruence. reflexivity.
Qed.

(** X4.  When the existing file holds JSON other than an object,
    [save_config] returns [False] whatever the write would have done, and
    leaves the file and the instance as they were. *)
Theorem save_config_not_object self v w u k :
  (forall m, v <> JDict m) ->
  save_config self (Some (Holds v)) w u k = (false, Some (Holds v), self).
Proof.
  intros Hv. unfold save_config. cbn [read_config].
  destruct v; try reflexivity. now destruct (Hv m).
Qed.

(** X5.  The last save wins: after a successful save, a second
    successful save leaves the same file and the same instance as if it
    had been the only one. *)
Theorem save_config_last_wins self d u1 k1 d1 self1 u2 k2 :
  save_config self d Written u1 k1 = (true, d1, self1) ->
  save_config self1 d1 Written u2 k2 = save_config self d Written u2 k2.
Proof.
  intros [[[=] _] | (m & Hm & _ & _ & -> & ->)]%save_config_inv.
  unfold save_config. cbn [read_config]. rewrite Hm.
  cbn [py_setitem bind]. do 5 f_equal.
  apply map_eq. intros key. rewrite !lookup_insert.
  repeat case_decide; reflexivity.
Qed.


End ConfigMore.

(** ** Further properties of bookmark entries *)

Section BookmarksMore.

Variable L : PyLib.
Variable W : World.

(** Whatever else a converted bookmark shows, its action is
    [open_bookmark] on the record's [id] and [url]. *)
Lemma bookmark_to_result_action b e :
  _bookmark_to_result L b = Ok e ->
  JsonRPCAction e =
    Some {| method := "open_bookmark";
            parameters := [field b "id" (JStr ""); field b "url" (JStr "")] |}.
Proof.
  destruct b as [| | | | | |m]; try discriminate.
  unfold _bookmark_to_result, field. cbn [py_get bind].
  destruct (py_gt_zero _) as [[|]|]; cbn [bind]; try discriminate.
  - destruct (py_iadd _ _); cbn [bind]; [|discriminate].
    intros [= <-]. reflexivity.
  - intros [= <-]. reflexivity.
Qed.

(** X7.  A bookmark whose [click_count] is null, a string, a list or an
    object cannot be compared with zero: the conversion raises
    [TypeError]. *)
Theorem bookmark_bad_click_count m c :
  m !! "click_count" = Some c ->
  c = JNull \/ (exists s, c = JStr s) \/ (exists l, c = JList l)
  \/ (exists d, c = JDict d) ->
  _bookmark_to_result L (JDict m) = Raise TypeError.
Proof.
  intros Hc Hshape. unfold _bookmark_to_result. cbn [py_get bind].
  rewrite Hc. destruct Hshape as [->|[[s ->]|[[l ->]|[d ->]]]]; reflexivity.
Qed.



End BookmarksMore.

(** ** Further properties of the dispatcher *)

Section DispatcherMore.

Variable L : PyLib.
Variable W : World.

Import PyStr PyStrFacts.

Lemma traverse_Forall2 {A B : Type} (f : A -> result B) l es :
  traverse f l = Ok es -> Forall2 (fun a b => f a = Ok b) l es.
Proof.
  revert es. induction l as [|a l IH]; cbn [traverse]; intros es.
  - intros [= <-]. constructor.
  - destruct (f a) as [b|] eqn:Ha; cbn [bind]; [|discriminate].
    destruct (traverse f l) as [bs|]; cbn [bind]; [|discriminate].
    intros [= <-]. constructor; [exact Ha | apply IH; reflexivity].
Qed.

Lemma traverse_raise {A B : Type} (f : A -> result B) l a e0 :
  In a l -> f a = Raise e0 -> exists e, traverse f l = Raise e.
Proof.
  intros Hin Ha. induction l as [|x l IH]; [destruct Hin|].
  cbn [traverse]. destruct (f x) as [b|e] eqn:Hx; cbn [bind]; [|eauto].
  destruct Hin as [->|Hin]; [congruence|].
  destruct (IH Hin) as [e ->]. cbn [bind]. eauto.
Qed.

Lemma Forall2_In_r {A B : Type} (P : A -> B -> Prop) l es e :
  Forall2 P l es -> In e es -> exists b, In b l /\ P b e.
Proof.
  induction 1 as [|b e' l es Hb _ IH]; intros Hin; [destruct Hin|].
  destruct Hin as [->|Hin]; [exists b; split; [left; reflexivity | exact Hb]|].
  destruct (IH Hin) as (b' & Hin' & Hb'). exists b'. split; [right|]; assumption.
Qed.

Lemma rstrip_char_last c s :
  rstrip_char c (s +:+ String c "") = rstrip_char c s.
Proof.
  induction s as [|a s IH]; simpl.
  - rewrite Ascii.eqb_refl. reflexivity.
  - rewrite IH. reflexivity.
Qed.

Lemma chars_nonempty c r : chars (String c r) <> [].
Proof.
  cbn [chars]. destruct (chars r); [discriminate|].
  destruct r as [|d r']; [discriminate|].
  destruct (continuation (byte d)); discriminate.
Qed.

(** The loop over a true answer ends normally only for a non-empty
    list, every element of which converts. *)
Lemma append_bookmarks_inv rs v es :
  truthy v = true ->
  append_bookmarks L rs v = Ok es ->
  exists l conv,
    v = JList l /\ l <> []
    /\ traverse (_bookmark_to_result L) l = Ok conv
    /\ es = (rs ++ conv)%list.
Proof.
  unfold append_bookmarks. destruct v as [| | | |s|l|m];
    cbn [truthy py_iter bind]; try discriminate.
  - destruct s as [|c r]; [discriminate|]. intros _.
    pose proof (chars_nonempty c r) as Hne.
    destruct (chars (String c r)); [congruence|]. cbn. intros [=].
  - intros Hl. destruct (traverse _ l) as [conv|] eqn:Hc; cbn [bind];
      [|discriminate].
    intros [= <-]. exists l, conv.
    split; [reflexivity|]. split; [now destruct l|].
    split; [exact Hc | reflexivity].
  - intros Hm. destruct (map_to_list m) as [|[k x] kvs] eqn:E.
    + apply map_to_list_empty_iff in E. subst m.
      rewrite bool_decide_eq_true_2 in Hm by reflexivity. discriminate.
    + cbn. intros [=].
Qed.

Lemma append_bookmarks_raise rs v :
  truthy v = true -> (forall l, v <> JList l) ->
  exists e, append_bookmarks L rs v = Raise e
            /\ (e = TypeError \/ e = AttributeError).
Proof.
  intros Ht Hl. unfold append_bookmarks.
  destruct v as [| | | |s|l|m]; cbn [py_iter bind]; eauto;
    try discriminate.
  - destruct s as [|c r]; [discriminate|].
    pose proof (chars_nonempty c r) as Hne.
    destruct (chars (String c r)); [congruence|]. cbn. eauto.
  - now destruct (Hl l).
  - destruct (map_to_list m) as [|[k x] kvs] eqn:E.
    + apply map_to_list_empty_iff in E. subst m. cbn in Ht.
      rewrite bool_decide_eq_true_2 in Ht by reflexivity. discriminate.
    + cbn. eauto.
Qed.

Lemma api_request_200 self get ep ps r v :
  requests W = Some get ->
  truthy (api_key self) = true ->
  get_request self ep ps = Some r ->
  get r = Response 200 (Some v) ->
  api_request W self ep ps = ([HttpGet r], v).
Proof.
  intros Hreq Hk Hr Hget. unfold api_request.
  rewrite Hreq, Hk, Hr, Hget. reflexivity.
Qed.

(** What a query that goes to the service returns. *)
Lemma query_fetch self get q :
  requests W = Some get ->
  truthy (api_key self) = true ->
  startswith "config " q = false ->
  fetches q = true ->
  query L W self q =
    let '(trace, bookmarks) :=
      api_request W self "/quick-search" (quick_search_params q) in
    if is_none bookmarks then (trace, Ok [cannot_connect_entry L self])
    else if negb (truthy bookmarks)
    then (trace, Ok [if String.eqb (strip q) ""
                     then no_bookmarks_entry self else no_match_entry q])
    else (trace,
          append_bookmarks L
            (if String.eqb (strip q) "" then [header_entry] else [])
            bookmarks).
Proof.
  intros Hreq Hk Hc Hf. unfold query, fetches, quick_search_params in *.
  rewrite Hreq, Hc, Hk. cbn [negb].
  destruct (String.eqb (strip q) "") eqn:Hb; [reflexivity|].
  cbn [orb] in Hf. apply andb_prop in Hf as [Ha Ho].
  apply negb_true_iff in Ha, Ho. rewrite Ha, Ho. reflexivity.
Qed.

(** The ways a query can go. *)
Lemma query_cases self q :
  (requests W = None /\ query L W self q = ([], Ok [missing_requests_entry]))
  \/ (exists e,
        query L W self q = ([], Ok [e])
        /\ (e = usage_entry \/ e = not_configured_entry
            \/ e = open_entry L self
            \/ (exists u k, e = configure_entry u k)
            \/ (exists u, e = add_entry u)))
  \/ (exists get,
        requests W = Some get /\ truthy (api_key self) = true
        /\ startswith "config " q = false /\ fetches q = true).
Proof.
  destruct (requests W) as [get|] eqn:Hreq.
  2:{ left. split; [reflexivity|]. unfold query. rewrite Hreq. reflexivity. }
  right. unfold query, fetches. rewrite Hreq.
  destruct (startswith "config " q) eqn:Hc.
  { left. destruct (split_once _) as [|u [|k [|x l]]]; eauto 10. }
  destruct (truthy (api_key self)) eqn:Hk; cbn [negb].
  2:{ left. eauto 10. }
  destruct (String.eqb (strip q) "") eqn:Hb.
  { right. exists get. auto. }
  destruct (startswith "add " q && _) eqn:Ha.
  { left. eauto 10. }
  destruct (String.eqb (strip q) "open") eqn:Ho.
  { left. eauto 10. }
  right. exists get. auto.
Qed.

Lemma api_request_trace self ep ps :
  fst (api_request W self ep ps) = []
  \/ exists r, get_request self ep ps = Some r
               /\ fst (api_request W self ep ps) = [HttpGet r].
Proof.
  unfold api_request. destruct (requests W) as [get|]; [|auto].
  destruct (truthy (api_key self)); cbn [negb]; [|auto].
  destruct (get_request self ep ps) as [r|]; [|auto].
  right. exists r. auto.
Qed.

(** X10.  Whenever [api_request] returns something other than [None],
    the package is there, the API key is true, exactly one GET was
    issued, to the server URL without its trailing slashes, and the
    answer was a 200 whose body is the value returned. *)
Theorem api_request_answer self ep ps trace v :
  api_request W self ep ps = (trace, v) ->
  v <> JNull ->
  exists get r,
    requests W = Some get
    /\ truthy (api_key self) = true
    /\ get_request self ep ps = Some r
    /\ trace = [HttpGet r]
    /\ get r = Response 200 (Some v).
Proof.
  unfold api_request. destruct (requests W) as [get|]; [|intros [= _ <-]; congruence].
  destruct (truthy (api_key self)); cbn [negb]; [|intros [= _ <-]; congruence].
  destruct (get_request self ep ps) as [r|]; [|intros [= _ <-]; congruence].
  intros [= <- <-] Hv. exists get, r. repeat (split; [reflexivity|]).
  unfold decoded in *. destruct (get r) as [|code [b|]]; try congruence.
  destruct (code =? 200)%Z eqn:E; [|congruence].
  apply Z.eqb_eq in E. subst code. reflexivity.
Qed.

(** X11.  A slash at the end of the configured server URL makes no
    difference to the GET that is prepared. *)
Theorem get_request_trailing_slash base key ep ps :
  get_request {| server_url := JStr (base +:+ "/"); api_key := key |} ep ps
  = get_request {| server_url := JStr base; api_key := key |} ep ps.
Proof.
  unfold get_request. cbn [server_url api_key].
  change "/" with (String "/"%char "").
  rewrite (rstrip_char_last "/"%char base). reflexivity.
Qed.

(** X12.  A query issues at most one network call, and only ever a GET
    of [/quick-search]: with [limit] 10 when the query is blank, with
    the untrimmed query text as [q] and [limit] 15 otherwise. *)
Theorem query_issues_one_get self q trace res :
  query L W self q = (trace, res) ->
  trace = []
  \/ exists r,
       get_request self "/quick-search" (quick_search_params q) = Some r
       /\ trace = [HttpGet r].
Proof.
  intros Hq.
  destruct (query_cases self q)
    as [[_ H] | [(e & H & _) | (get & Hreq & Hk & Hc & Hf)]];
    try (rewrite H in Hq; injection Hq as <- _; now left).
  rewrite (query_fetch self get q Hreq Hk Hc Hf) in Hq.
  destruct (api_request_trace self "/quick-search" (quick_search_params q))
    as [Ht | (r & Hr & Ht)];
    destruct (api_request W self "/quick-search" (quick_search_params q))
      as [tr v]; cbn [fst] in Ht; subst tr;
    [left | right; exists r; split; [exact Hr|]];
    destruct (is_none v); try (injection Hq as <- _; reflexivity);
    destruct (negb (truthy v)); injection Hq as <- _; reflexivity.
Qed.

(** X13.  A query that returns, returns at least one entry. *)
Theorem query_never_empty self q trace es :
  query L W self q = (trace, Ok es) -> es <> [].
Proof.
  intros Hq.
  destruct (query_cases self q)
    as [[_ H] | [(e & H & _) | (get & Hreq & Hk & Hc & Hf)]];
    try (rewrite H in Hq; injection Hq as _ <-; discriminate).
  rewrite (query_fetch self get q Hreq Hk Hc Hf) in Hq.
  destruct (api_request W self "/quick-search" (quick_search_params q))
    as [tr v].
  destruct (is_none v); [injection Hq as _ <-; discriminate|].
  destruct (truthy v) eqn:Hv; cbn [negb] in Hq;
    [|injection Hq as _ <-; discriminate].
  injection Hq as _ Hq.
  apply (append_bookmarks_inv _ _ _ Hv) in Hq
    as (l & conv & _ & Hl & Hconv & ->).
  apply traverse_Forall2 in Hconv. destruct Hconv; [congruence|].
  now destruct (if String.eqb (strip q) "" then [header_entry] else []).
Qed.

(** X14.  Every action a query hands to the launcher is one the plugin
    handles: whatever entry of the returned list is selected, its
    method is one of the four handlers and its parameters are as many
    as the handler takes. *)
Theorem query_actions_handled self q trace es e a d w :
  query L W self q = (trace, Ok es) ->
  In e es ->
  JsonRPCAction e = Some a ->
  is_Some (invoke L W self d w a).
Proof.
  intros Hq Hin Ha.
  assert (Hconf : forall x y, is_Some (invoke L W self d w
            {| method := "configure"; parameters := [x; y] |})).
  { intros x y. cbn [invoke parameters method String.eqb Ascii.eqb Bool.eqb].
    destruct (configure self d w x y). eauto. }
  destruct (query_cases self q)
    as [[_ H] | [(e' & H & He') | (get & Hreq & Hk & Hc & Hf)]].
  - rewrite H in Hq. injection Hq as _ <-. destruct Hin as [<-|[]].
    injection Ha as <-. cbn. eauto.
  - rewrite H in Hq. injection Hq as _ <-. destruct Hin as [<-|[]].
    destruct He' as [->|[->|[->|[(u & k & ->)|(u & ->)]]]];
      try discriminate Ha; injection Ha as <-; try apply Hconf; cbn; eauto.
  - rewrite (query_fetch self get q Hreq Hk Hc Hf) in Hq.
    destruct (api_request W self "/quick-search" (quick_search_params q))
      as [tr v].
    destruct (is_none v).
    { injection Hq as _ <-. destruct Hin as [<-|[]]. discriminate Ha. }
    destruct (truthy v) eqn:Hv; cbn [negb] in Hq.
    2:{ injection Hq as _ <-. destruct Hin as [<-|[]].
        destruct (String.eqb (strip q) ""); [|discriminate Ha].
        injection Ha as <-. cbn. eauto. }
    injection Hq as _ Hq.
    apply (append_bookmarks_inv _ _ _ Hv) in Hq
      as (l & conv & _ & _ & Hconv & ->).
    apply in_app_or in Hin as [Hin|Hin].
    { destruct (String.eqb (strip q) ""); [|destruct Hin].
      destruct Hin as [<-|[]]. discriminate Ha. }
    apply traverse_Forall2 in Hconv.
    destruct (Forall2_In_r _ _ _ _ Hconv Hin) as (b & _ & Hb).
    rewrite (bookmark_to_result_action L b e Hb) in Ha.
    injection Ha as <-. cbn. eauto.
Qed.

(** X15.  With an API key configured, a search (a query that is not
    blank, not a command) to which the service answers 200 with a list
    of [N >= 1] bookmark records returns exactly [N] entries and no
    header: the display entry of each bookmark, in the order of the
    answer. *)
Theorem search_lists_bookmarks self get q r bms :
  requests W = Some get ->
  truthy (api_key self) = true ->
  startswith "config " q = false ->
  strip q <> "" ->
  fetches q = true ->
  get_request self "/quick-search" [("q", JStr q); ("limit", JInt 15)]
  = Some r ->
  get r = Response 200 (Some (JList bms)) ->
  bms <> [] ->
  Forall (fun b => bookmark_record b = true) bms ->
  exists es,
    query L W self q = ([HttpGet r], Ok es)
    /\ length es = length bms
    /\ Forall2 (fun b e => _bookmark_to_result L b = Ok e) bms es.
Proof.
  intros Hreq Hk Hc Hb Hf Hr Hget Hne Hall.
  destruct (traverse_records L bms Hall) as (es & Hes & H2).
  exists es. split; [|split; [symmetry; exact (Forall2_length _ _ _ H2) | exact H2]].
  rewrite (query_fetch self get q Hreq Hk Hc Hf).
  apply String.eqb_neq in Hb. unfold quick_search_params. rewrite Hb.
  rewrite (api_request_200 self get _ _ r _ Hreq Hk Hr Hget).
  cbn [is_none truthy]. destruct bms as [|b bms]; [congruence|].
  cbn [negb]. unfold append_bookmarks. cbn [py_iter bind].
  rewrite Hes. reflexivity.
Qed.

(** X16.  No partial results: when the service answers 200 with a list
    and one bookmark of the list cannot be converted, the query raises,
    whatever the other bookmarks are. *)
Theorem bad_bookmark_raises self get q r bms b e0 :
  requests W = Some get ->
  truthy (api_key self) = true ->
  startswith "config " q = false ->
  fetches q = true ->
  get_request self "/quick-search" (quick_search_params q) = Some r ->
  get r = Response 200 (Some (JList bms)) ->
  In b bms ->
  _bookmark_to_result L b = Raise e0 ->
  exists e, query L W self q = ([HttpGet r], Raise e).
Proof.
  intros Hreq Hk Hc Hf Hr Hget Hin Hb.
  rewrite (query_fetch self get q Hreq Hk Hc Hf).
  rewrite (api_request_200 self get _ _ r _ Hreq Hk Hr Hget).
  cbn [is_none truthy]. destruct bms as [|b' bms]; [destruct Hin|].
  cbn [negb]. unfold append_bookmarks. cbn [py_iter bind].
  destruct (traverse_raise (_bookmark_to_result L) (b' :: bms) b e0 Hin Hb)
    as [e ->].
  exists e. reflexivity.
Qed.

(** X17.  A 200 whose body is false without being null (an empty list,
    an empty object, zero, the empty string, [false]) gives exactly one
    message: "No bookmarks found", with the action of opening the
    server URL, for a blank query; "No bookmarks found for '<query>'",
    with no action, for a search. *)
Theorem empty_answer_message self get q r v :
  requests W = Some get ->
  truthy (api_key self) = true ->
  startswith "config " q = false ->
  fetches q = true ->
  get_request self "/quick-search" (quick_search_params q) = Some r ->
  get r = Response 200 (Some v) ->
  v <> JNull ->
  truthy v = false ->
  query L W self q =
    ([HttpGet r],
     Ok [if String.eqb (strip q) ""
         then message "No bookmarks found" "Add some bookmarks in AnchorMarks"
                (Some {| method := "open_url";
                         parameters := [server_url self] |})
         else message ("No bookmarks found for '" +:+ q +:+ "'")
                "Try a different search term" None]).
Proof.
  intros Hreq Hk Hc Hf Hr Hget Hnull Hv.
  rewrite (query_fetch self get q Hreq Hk Hc Hf).
  rewrite (api_request_200 self get _ _ r _ Hreq Hk Hr Hget).
  rewrite Hv. destruct v; try reflexivity. congruence.
Qed.

(** X18.  A 200 whose body is JSON null cannot be told from a failed
    request: the query returns the "cannot connect" entry. *)
Theorem null_answer_cannot_connect self get q r :
  requests W = Some get ->
  truthy (api_key self) = true ->
  startswith "config " q = false ->
  fetches q = true ->
  get_request self "/quick-search" (quick_search_params q) = Some r ->
  get r = Response 200 (Some JNull) ->
  query L W self q = ([HttpGet r], Ok [cannot_connect_entry L self]).
Proof.
  intros Hreq Hk Hc Hf Hr Hget.
  rewrite (query_fetch self get q Hreq Hk Hc Hf).
  rewrite (api_request_200 self get _ _ r _ Hreq Hk Hr Hget). reflexivity.
Qed.

(** X19.  A 200 whose body is true but not a list (a non-empty object
    or string, a number, [true]) makes the query raise a [TypeError] or
    an [AttributeError]: the failure policy of [api_request] does not
    cover it. *)
Theorem wrong_shape_answer_raises self get q r v :
  requests W = Some get ->
  truthy (api_key self) = true ->
  startswith "config " q = false ->
  fetches q = true ->
  get_request self "/quick-search" (quick_search_params q) = Some r ->
  get r = Response 200 (Some v) ->
  truthy v = true ->
  (forall l, v <> JList l) ->
  exists e,
    query L W self q = ([HttpGet r], Raise e)
    /\ (e = TypeError \/ e = AttributeError).
Proof.
  intros Hreq Hk Hc Hf Hr Hget Hv Hl.
  rewrite (query_fetch self get q Hreq Hk Hc Hf).
  rewrite (api_request_200 self get _ _ r _ Hreq Hk Hr Hget).
  rewrite Hv. cbn [negb].
  destruct (append_bookmarks_raise
              (if String.eqb (strip q) "" then [header_entry] else []) v Hv Hl)
    as (e & -> & He).
  exists e. split; [|exact He]. destruct v; try reflexivity; discriminate.
Qed.

(** X20.  When the configured server URL is not a string (a number in
    the configuration file, say), a query that would go to the service
    makes no network call and returns the "cannot connect" entry. *)
Theorem non_string_server_url self get q :
  requests W = Some get ->
  truthy (api_key self) = true ->
  startswith "config " q = false ->
  fetches q = true ->
  (forall s, server_url self <> JStr s) ->
  query L W self q = ([], Ok [cannot_connect_entry L self]).
Proof.
  intros Hreq Hk Hc Hf Hs.
  rewrite (query_fetch self get q Hreq Hk Hc Hf).
  unfold api_request, get_request. rewrite Hreq, Hk. cbn [negb].
  destruct (server_url self) as [| | | |s| |]; try reflexivity.
  now destruct (Hs s).
Qed.

(** X21.  Without the [requests] package nothing goes over the network:
    every query returns the "missing library" entry alone, and whatever
    action is selected leads to browser events only. *)
Theorem no_http_without_requests :
  requests W = None ->
  (forall self q, query L W self q = ([], Ok [missing_requests_entry]))
  /\ (forall self d w a events d' self',
        invoke L W self d w a = Some (events, d', self') ->
        Forall (fun ev => http ev = false) events).
Proof.
  intros Hreq. split.
  - intros self q. unfold query. rewrite Hreq. reflexivity.
  - intros self d w a events d' self'. unfold invoke.
    destruct (parameters a) as [|x [|y [|z l]]]; try discriminate.
    + destruct (String.eqb (method a) "open_url").
      { intros [= <- _ _]. repeat constructor. }
      destruct (String.eqb (method a) "add_bookmark"); [|discriminate].
      unfold add_bookmark. rewrite Hreq. intros [= <- _ _]. constructor.
    + destruct (String.eqb (method a) "open_bookmark").
      { unfold open_bookmark. rewrite Hreq.
        rewrite bool_decide_eq_false_2 by (intros [? ?]; discriminate).
        rewrite andb_false_r. intros [= <- _ _]. repeat constructor. }
      destruct (String.eqb (method a) "configure"); [|discriminate].
      destruct (configure self d w x y). intros [= <- _ _]. constructor.
Qed.



End DispatcherMore.

(** *** Concrete runs of the further properties *)

Lemma load_config_port_witness :
  let d := Some (Holds (JDict Examples.stored_port)) in
  read_config d = JDict Examples.stored_port
  /\ Examples.stored_port !! "server_url" = None
  /\ Examples.stored_port !! "port" = Some (JInt 8080)
  /\ exists st,
       load_config Examples.lib d = Ok st
       /\ (forall n, JInt 8080 = JInt n ->
           server_url st = JStr ("http://localhost:" +:+ pretty n))
       /\ (forall s, JInt 8080 = JStr s ->
           server_url st = JStr ("http://localhost:" +:+ s)).
Proof.
  intros d. repeat (split; [reflexivity|]).
  apply (load_config_port Examples.lib d Examples.stored_port (JInt 8080));
    reflexivity.
Defined.

Example load_config_port_run :
  load_config Examples.lib (Some (Holds (JDict Examples.stored_port)))
  = Ok {| server_url := JStr "http://localhost:8080"; api_key := JStr "" |}.
Proof. reflexivity. Qed.


Lemma save_config_keeps_other_keys_witness :
  let saved : gmap string json :=
    <["api_key" := JStr "s3cret"]>
      (<["server_url" := JStr "http://bm.example"]> Examples.stored_port) in
  save_config Examples.unconfigured
    (Some (Holds (JDict Examples.stored_port))) Written
    (JStr "http://bm.example") (JStr "s3cret")
  = (true, Some (Holds (JDict saved)),
     {| server_url := JStr "http://bm.example"; api_key := JStr "s3cret" |})
  /\ exists m m',
       read_config (Some (Holds (JDict Examples.stored_port))) = JDict m
       /\ Some (Holds (JDict saved)) = Some (Holds (JDict m'))
       /\ m' !! "server_url" = Some (JStr "http://bm.example")
       /\ m' !! "api_key" = Some (JStr "s3cret")
       /\ forall key, key <> "server_url" -> key <> "api_key" ->
                      m' !! key = m !! key.
Proof.
  intros saved. split; [reflexivity|].
  apply (save_config_keeps_other_keys Examples.unconfigured
           (Some (Holds (JDict Examples.stored_port))) Written
           (JStr "http://bm.example") (JStr "s3cret")
           (Some (Holds (JDict saved)))
           {| server_url := JStr "http://bm.example";
              api_key := JStr "s3cret" |}).
  reflexivity.
Defined.

Lemma save_config_not_object_witness :
  (forall m, JList [] <> JDict m)
  /\ save_config Examples.configured (Some (Holds (JList []))) Written
       (JStr "http://bm.example") (JStr "k")
     = (false, Some (Holds (JList [])), Examples.configured).
Proof.
  split; [discriminate|].
  apply (save_config_not_object Examples.configured (JList []) Written).
  discriminate.
Defined.

Lemma save_config_last_wins_witness :
  let d1 : disk :=
    Some (Holds (JDict (<["api_key" := JStr "old"]>
                          (<["server_url" := JStr "http://old.example"]>
                             Examples.stored_port)))) in
  let s1 :=
    {| server_url := JStr "http://old.example"; api_key := JStr "old" |} in
  save_config Examples.unconfigured
    (Some (Holds (JDict Examples.stored_port))) Written
    (JStr "http://old.example") (JStr "old") = (true, d1, s1)
  /\ save_config s1 d1 Written (JStr "http://bm.example") (JStr "s3cret")
     = save_config Examples.unconfigured
         (Some (Holds (JDict Examples.stored_port))) Written
         (JStr "http://bm.example") (JStr "s3cret").
Proof.
  intros d1 s1. split; [reflexivity|].
  apply (save_config_last_wins Examples.unconfigured
           (Some (Holds (JDict Examples.stored_port)))
           (JStr "http://old.example") (JStr "old") d1 s1).
  reflexivity.
Defined.


Lemma bookmark_bad_click_count_witness :
  let m : gmap string json :=
    {[ "id" := JStr "b3"; "url" := JStr "https://example.com/";
       "click_count" := JNull ]} in
  m !! "click_count" = Some JNull
  /\ _bookmark_to_result Examples.lib (JDict m) = Raise TypeError.
Proof.
  intros m. split; [reflexivity|].
  apply (bookmark_bad_click_count Examples.lib m JNull); [reflexivity|].
  left. reflexivity.
Defined.



Example bookmark_click_run :
  invoke Examples.lib Examples.offline Examples.configured None Written
    {| method := "open_bookmark";
       parameters := [JStr "b1"; JStr "https://rocq-prover.org/docs"] |}
  = Some ([HttpPost "http://localhost:3000//api/bookmarks/b1/click"
             [("X-API-Key", JStr "s3cret")] None 2;
           BrowserOpen (JStr "https://rocq-prover.org/docs")],
          None, Examples.configured).
Proof. reflexivity. Qed.

Lemma api_request_answer_witness :
  let v := JList [Examples.rocq_bookmark; Examples.bare_bookmark] in
  api_request Examples.online Examples.configured "/quick-search"
    [("limit", JInt 10)] = ([HttpGet Examples.top_request], v)
  /\ v <> JNull
  /\ exists get r,
       requests Examples.online = Some get
       /\ truthy (api_key Examples.configured) = true
       /\ get_request Examples.configured "/quick-search" [("limit", JInt 10)]
          = Some r
       /\ [HttpGet Examples.top_request] = [HttpGet r]
       /\ get r = Response 200 (Some v).
Proof.
  intros v. split; [reflexivity|]. split; [discriminate|].
  apply (api_request_answer Examples.online Examples.configured
           "/quick-search" [("limit", JInt 10)]);
    [reflexivity | discriminate].
Defined.

Lemma query_issues_one_get_witness :
  query Examples.lib Examples.offline Examples.configured "rocq docs"
  = ([HttpGet (Examples.search_request "rocq docs")],
     Ok [cannot_connect_entry Examples.lib Examples.configured])
  /\ ([HttpGet (Examples.search_request "rocq docs")] = []
      \/ exists r,
           get_request Examples.configured "/quick-search"
             (quick_search_params "rocq docs") = Some r
           /\ [HttpGet (Examples.search_request "rocq docs")] = [HttpGet r]).
Proof.
  split; [reflexivity|].
  apply (query_issues_one_get Examples.lib Examples.offline
           Examples.configured "rocq docs" _
           (Ok [cannot_connect_entry Examples.lib Examples.configured])).
  reflexivity.
Defined.

Lemma query_never_empty_witness :
  query Examples.lib Examples.online Examples.configured "rocq docs"
  = ([HttpGet (Examples.search_request "rocq docs")],
     Ok [Examples.rocq_entry; Examples.bare_entry])
  /\ [Examples.rocq_entry; Examples.bare_entry] <> [].
Proof.
  split; [reflexivity|].
  apply (query_never_empty Examples.lib Examples.online Examples.configured
           "rocq docs" [HttpGet (Examples.search_request "rocq docs")]).
  reflexivity.
Defined.

Lemma query_actions_handled_witness :
  let a := {| method := "open_bookmark";
              parameters := [JStr "b2"; JStr "http://localhost:3000/x"] |} in
  query Examples.lib Examples.online Examples.configured "rocq docs"
  = ([HttpGet (Examples.search_request "rocq docs")],
     Ok [Examples.rocq_entry; Examples.bare_entry])
  /\ In Examples.bare_entry [Examples.rocq_entry; Examples.bare_entry]
  /\ JsonRPCAction Examples.bare_entry = Some a
  /\ is_Some (invoke Examples.lib Examples.online Examples.configured
                None Written a).
Proof.
  intros a. split; [reflexivity|]. split; [right; left; reflexivity|].
  split; [reflexivity|].
  apply (query_actions_handled Examples.lib Examples.online
           Examples.configured "rocq docs"
           [HttpGet (Examples.search_request "rocq docs")]
           [Examples.rocq_entry; Examples.bare_entry] Examples.bare_entry).
  - reflexivity.
  - right. left. reflexivity.
  - reflexivity.
Defined.

Lemma search_lists_bookmarks_witness :
  let bms := [Examples.rocq_bookmark; Examples.bare_bookmark] in
  requests Examples.online = Some (fun _ => Response 200 (Some (JList bms)))
  /\ truthy (api_key Examples.configured) = true
  /\ PyStr.startswith "config " "rocq docs" = false
  /\ PyStr.strip "rocq docs" <> ""
  /\ fetches "rocq docs" = true
  /\ get_request Examples.configured "/quick-search"
       [("q", JStr "rocq docs"); ("limit", JInt 15)]
     = Some (Examples.search_request "rocq docs")
  /\ exists es,
       query Examples.lib Examples.online Examples.configured "rocq docs"
       = ([HttpGet (Examples.search_request "rocq docs")], Ok es)
       /\ length es = length bms
       /\ Forall2 (fun b e => _bookmark_to_result Examples.lib b = Ok e) bms es.
Proof.
  intros bms. repeat (split; [first [reflexivity | discriminate]|]).
  apply (search_lists_bookmarks Examples.lib Examples.online
           Examples.configured _ "rocq docs"
           (Examples.search_request "rocq docs") bms eq_refl).
  - reflexivity.
  - reflexivity.
  - discriminate.
  - reflexivity.
  - reflexivity.
  - reflexivity.
  - discriminate.
  - repeat constructor.
Defined.

Lemma bad_bookmark_raises_witness :
  let bms := [Examples.rocq_bookmark; Examples.odd_bookmark] in
  let W := Examples.answering (JList bms) in
  requests W = Some (fun _ => Response 200 (Some (JList bms)))
  /\ truthy (api_key Examples.configured) = true
  /\ PyStr.startswith "config " "" = false
  /\ fetches "" = true
  /\ get_request Examples.configured "/quick-search" (quick_search_params "")
     = Some Examples.top_request
  /\ In Examples.odd_bookmark bms
  /\ _bookmark_to_result Examples.lib Examples.odd_bookmark = Raise TypeError
  /\ exists e,
       query Examples.lib W Examples.configured ""
       = ([HttpGet Examples.top_request], Raise e).
Proof.
  intros bms W. repeat (split; [reflexivity|]).
  split; [right; left; reflexivity|]. split; [reflexivity|].
  apply (bad_bookmark_raises Examples.lib W Examples.configured _ ""
           Examples.top_request bms Examples.odd_bookmark TypeError eq_refl).
  - reflexivity.
  - reflexivity.
  - reflexivity.
  - reflexivity.
  - reflexivity.
  - right. left. reflexivity.
  - reflexivity.
Defined.

Lemma empty_answer_message_witness :
  let W := Examples.answering (JList []) in
  requests W = Some (fun _ => Response 200 (Some (JList [])))
  /\ truthy (api_key Examples.configured) = true
  /\ PyStr.startswith "config " "rocq docs" = false
  /\ fetches "rocq docs" = true
  /\ get_request Examples.configured "/quick-search"
       (quick_search_params "rocq docs")
     = Some (Examples.search_request "rocq docs")
  /\ JList [] <> JNull
  /\ truthy (JList []) = false
  /\ query Examples.lib W Examples.configured "rocq docs"
     = ([HttpGet (Examples.search_request "rocq docs")],
        Ok [message "No bookmarks found for 'rocq docs'"
              "Try a different search term" None]).
Proof.
  intros W. repeat (split; [first [reflexivity | discriminate]|]).
  apply (empty_answer_message Examples.lib W Examples.configured _
           "rocq docs" (Examples.search_request "rocq docs") (JList [])
           eq_refl);
    first [reflexivity | discriminate].
Defined.

Lemma null_answer_cannot_connect_witness :
  let W := Examples.answering JNull in
  requests W = Some (fun _ => Response 200 (Some JNull))
  /\ truthy (api_key Examples.configured) = true
  /\ PyStr.startswith "config " "" = false
  /\ fetches "" = true
  /\ get_request Examples.configured "/quick-search" (quick_search_params "")
     = Some Examples.top_request
  /\ query Examples.lib W Examples.configured ""
     = ([HttpGet Examples.top_request],
        Ok [cannot_connect_entry Examples.lib Examples.configured]).
Proof.
  intros W. repeat (split; [reflexivity|]).
  apply (null_answer_cannot_connect Examples.lib W Examples.configured _ ""
           Examples.top_request eq_refl); reflexivity.
Defined.

Lemma wrong_shape_answer_raises_witness :
  let v := JDict {[ "error" := JStr "unauthorized" ]} in
  let W := Examples.answering v in
  requests W = Some (fun _ => Response 200 (Some v))
  /\ truthy (api_key Examples.configured) = true
  /\ PyStr.startswith "config " "rocq docs" = false
  /\ fetches "rocq docs" = true
  /\ get_request Examples.configured "/quick-search"
       (quick_search_params "rocq docs")
     = Some (Examples.search_request "rocq docs")
  /\ truthy v = true
  /\ (forall l, v <> JList l)
  /\ exists e,
       query Examples.lib W Examples.configured "rocq docs"
       = ([HttpGet (Examples.search_request "rocq docs")], Raise e)
       /\ (e = TypeError \/ e = AttributeError).
Proof.
  intros v W. repeat (split; [first [reflexivity | discriminate]|]).
  apply (wrong_shape_answer_raises Examples.lib W Examples.configured _
           "rocq docs" (Examples.search_request "rocq docs") v eq_refl);
    first [reflexivity | discriminate].
Defined.

Lemma non_string_server_url_witness :
  let self := {| server_url := JInt 3000; api_key := JStr "s3cret" |} in
  requests Examples.online
  = Some (fun _ => Response 200
                     (Some (JList [Examples.rocq_bookmark;
                                   Examples.bare_bookmark])))
  /\ truthy (api_key self) = true
  /\ PyStr.startswith "config " "rocq docs" = false
  /\ fetches "rocq docs" = true
  /\ (forall s, server_url self <> JStr s)
  /\ query Examples.lib Examples.online self "rocq docs"
     = ([], Ok [cannot_connect_entry Examples.lib self]).
Proof.
  intros self. repeat (split; [first [reflexivity | discriminate]|]).
  apply (non_string_server_url Examples.lib Examples.online self _
           "rocq docs" eq_refl);
    first [reflexivity | discriminate].
Defined.

Lemma no_http_without_requests_witness :
  requests Examples.no_requests = None
  /\ (forall self q,
        query Examples.lib Examples.no_requests self q
        = ([], Ok [missing_requests_entry]))
  /\ (forall self d w a events d' self',
        invoke Examples.lib Examples.no_requests self d w a
        = Some (events, d', self') ->
        Forall (fun ev => http ev = false) events).
Proof.
  split; [reflexivity|].
  apply (no_http_without_requests Examples.lib Examples.no_requests).
  reflexivity.
Defined.

